(** * The notebook client of super_hydro: frame pacing and server
      synchronisation

    A shallow embedding of [src/super_hydro/clients/notebook.py]: the classes
    [App], [_Interrupted] and [NotebookApp].  The Python objects are
    modelled as one record, [World], that is threaded through a small
    state-and-exception monad; the effects on the outside (the server proxy,
    the IPython kernel, the wall clock, the display) are recorded in a
    chronological [trace].

    Conventions.
    - Python floats are idealised as rationals ([Q]); [time.perf_counter]
      reads a logical [clock] that only [time.sleep] advances, by the time
      asked for.  Server calls, rendering and scheduler ticks take no time
      on this clock and no sleep returns late, so a real run is never
      earlier than the clock says and may be later: the clock serves for
      the order of events, for the sleeps that are asked for and for lower
      bounds on durations.
    - Python's [min]/[max] return their first argument unless the second
      is strictly smaller/larger; [Qmin]/[Qmax] do exactly that.
    - A loop takes a [fuel] bound; running out of fuel is the separate
      result [OutOfFuel], never confused with a Python outcome.
    - The Frame Rate Limiter ([contexts.FPS]) and the server proxy are
      defined outside this file; the limiter is modelled from the spec, the
      server by its answers.  What the host does inside
      [kernel.do_one_iteration] (running other handlers) is not modelled. *)

From Stdlib Require Import QArith Qminmax Qround Lqa Lia ZArith.
From Stdlib Require Import List String Ascii Bool Arith.
Import ListNotations.

Local Open Scope Q_scope.
Local Open Scope string_scope.

(** ** Data *)

(** A density frame: the 2-D array returned by [server.get_array]. *)
Definition Density := list (list Q).

(** [ClientDensityMixin.get_rgba_from_density] is an external colour map;
    an image is recorded as the density it was derived from. *)
Inductive Image : Type :=
| get_rgba_from_density (density : Density).

(** Python exceptions that the modelled code can raise. *)
Inductive Exn : Type :=
| ConnectionError
| NameError (name : string)
| ZeroDivisionError
| ValueError.

(** Effects visible outside the client, in the order they happen. *)
Inductive Event : Type :=
| SrvGet (keys : list string)            (* server.get(keys) *)
| SrvGetArray (name : string)            (* server.get_array(name) *)
| SrvSet (key : string) (value : Q)      (* server.set({key: value}) *)
| SrvDo (command : string)               (* server.do(command) *)
| Pump                                   (* kernel.do_one_iteration() *)
| Sleep (dt : Q)                         (* time.sleep(dt) *)
| Display                                (* display(self.get_widget()) *)
| Render (img : Image)                   (* self._w_density.rgba = img *)
| CallUpdateFrame.                       (* marker: update_frame() is entered *)

(** Modelled from the spec: the Frame Rate Limiter [contexts.FPS], whose
    class is imported by this file but defined elsewhere.  The record is the
    FrameBudget of the data model (frames, timeout, elapsed_frames,
    start_time) together with [fps_frame], the attribute [frame] that
    [update_frame] increments (a counter "used only for instantaneous-FPS
    display"), and [fps_active], the scope being entered and not yet left.
    An unlimited timeout is [None]. *)
Record FPS : Type := mkFPS {
  fps_frames : nat;
  fps_timeout : option Q;
  fps_elapsed_frames : nat;
  fps_start_time : Q;
  fps_frame : nat;
  fps_active : bool
}.

(** Construction-time settings: the class attributes [frames], [timeout]
    and [browser_control], the option [opts.fps] and the kernel's
    [_poll_interval]. *)
Record Config : Type := mkConfig {
  frames : nat;
  timeout : option Q;
  browser_control : bool;
  opts_fps : Q;
  _poll_interval : Q
}.

(** The remote server as the client sees it.  [srv_get_ok keys] tells
    whether [get(keys)] is answered ([false]: ConnectionError), [srv_grid]
    is the answer to [get(["Nx", "Ny"])], and [srv_get_array n] is the answer
    to the [n]-th call (from 0) of [get_array] ([None]: ConnectionError). *)
Record Server : Type := mkServer {
  srv_get_ok : list string -> bool;
  srv_grid : Z * Z;
  srv_get_array : nat -> option Density
}.

(** The widgets the client reads and writes. *)
Record Widgets : Type := mkWidgets {
  w_fps_value : Q;              (* self._w_fps.value: the target rate *)
  w_density_width : Q;          (* self._w_density.width *)
  w_density_height : Q;         (* self._w_density.height *)
  w_density_rgba : option Image;(* self._w_density.rgba *)
  w_density_on_update : bool;   (* update_frame registered with on_update *)
  w_finger_x_value : Q;         (* self._w_finger_x.value *)
  w_finger_y_value : Q;         (* self._w_finger_y.value *)
  w_msg_value : string          (* self._w_msg.value *)
}.

(** The whole state.  [_fps] is [self._fps]: [true] when it refers to the
    limiter object [fps_obj] (the same object as the local [fps] of [run]),
    [false] when it is [None]. *)
Record World : Type := mkWorld {
  cfg : Config;
  srv : Server;
  _running : bool;
  _mouse_down : bool;
  _fps : bool;
  Nx : Z;
  Ny : Z;
  fps_obj : FPS;
  widgets : Widgets;
  clock : Q;
  trace : list Event
}.

(** RunState of the data model. *)
Inductive RunState : Type := Running | Stopped.

Definition run_state (w : World) : RunState :=
  if _running w then Running else Stopped.

(** Field updates. *)
Definition upd_w_fps_value (v : Q) (g : Widgets) : Widgets :=
  {| w_fps_value := v; w_density_width := w_density_width g;
     w_density_height := w_density_height g;
     w_density_rgba := w_density_rgba g;
     w_density_on_update := w_density_on_update g;
     w_finger_x_value := w_finger_x_value g;
     w_finger_y_value := w_finger_y_value g; w_msg_value := w_msg_value g |}.

Definition upd_w_density_width (v : Q) (g : Widgets) : Widgets :=
  {| w_fps_value := w_fps_value g; w_density_width := v;
     w_density_height := w_density_height g;
     w_density_rgba := w_density_rgba g;
     w_density_on_update := w_density_on_update g;
     w_finger_x_value := w_finger_x_value g;
     w_finger_y_value := w_finger_y_value g; w_msg_value := w_msg_value g |}.

Definition upd_w_density_rgba (v : option Image) (g : Widgets) : Widgets :=
  {| w_fps_value := w_fps_value g; w_density_width := w_density_width g;
     w_density_height := w_density_height g; w_density_rgba := v;
     w_density_on_update := w_density_on_update g;
     w_finger_x_value := w_finger_x_value g;
     w_finger_y_value := w_finger_y_value g; w_msg_value := w_msg_value g |}.

Definition upd_w_density_on_update (v : bool) (g : Widgets) : Widgets :=
  {| w_fps_value := w_fps_value g; w_density_width := w_density_width g;
     w_density_height := w_density_height g;
     w_density_rgba := w_density_rgba g; w_density_on_update := v;
     w_finger_x_value := w_finger_x_value g;
     w_finger_y_value := w_finger_y_value g; w_msg_value := w_msg_value g |}.

Definition upd_w_finger_x_value (v : Q) (g : Widgets) : Widgets :=
  {| w_fps_value := w_fps_value g; w_density_width := w_density_width g;
     w_density_height := w_density_height g;
     w_density_rgba := w_density_rgba g;
     w_density_on_update := w_density_on_update g; w_finger_x_value := v;
     w_finger_y_value := w_finger_y_value g; w_msg_value := w_msg_value g |}.

Definition upd_w_finger_y_value (v : Q) (g : Widgets) : Widgets :=
  {| w_fps_value := w_fps_value g; w_density_width := w_density_width g;
     w_density_height := w_density_height g;
     w_density_rgba := w_density_rgba g;
     w_density_on_update := w_density_on_update g;
     w_finger_x_value := w_finger_x_value g; w_finger_y_value := v;
     w_msg_value := w_msg_value g |}.

Definition upd_w_msg_value (v : string) (g : Widgets) : Widgets :=
  {| w_fps_value := w_fps_value g; w_density_width := w_density_width g;
     w_density_height := w_density_height g;
     w_density_rgba := w_density_rgba g;
     w_density_on_update := w_density_on_update g;
     w_finger_x_value := w_finger_x_value g;
     w_finger_y_value := w_finger_y_value g; w_msg_value := v |}.

Definition set_running (v : bool) (w : World) : World :=
  {| cfg := cfg w; srv := srv w; _running := v; _mouse_down := _mouse_down w;
     _fps := _fps w; Nx := Nx w; Ny := Ny w; fps_obj := fps_obj w;
     widgets := widgets w; clock := clock w; trace := trace w |}.

Definition set_mouse_down (v : bool) (w : World) : World :=
  {| cfg := cfg w; srv := srv w; _running := _running w; _mouse_down := v;
     _fps := _fps w; Nx := Nx w; Ny := Ny w; fps_obj := fps_obj w;
     widgets := widgets w; clock := clock w; trace := trace w |}.

Definition set_fps (v : bool) (w : World) : World :=
  {| cfg := cfg w; srv := srv w; _running := _running w;
     _mouse_down := _mouse_down w; _fps := v; Nx := Nx w; Ny := Ny w;
     fps_obj := fps_obj w; widgets := widgets w; clock := clock w;
     trace := trace w |}.

Definition set_Nx (v : Z) (w : World) : World :=
  {| cfg := cfg w; srv := srv w; _running := _running w;
     _mouse_down := _mouse_down w; _fps := _fps w; Nx := v; Ny := Ny w;
     fps_obj := fps_obj w; widgets := widgets w; clock := clock w;
     trace := trace w |}.

Definition set_Ny (v : Z) (w : World) : World :=
  {| cfg := cfg w; srv := srv w; _running := _running w;
     _mouse_down := _mouse_down w; _fps := _fps w; Nx := Nx w; Ny := v;
     fps_obj := fps_obj w; widgets := widgets w; clock := clock w;
     trace := trace w |}.

Definition set_fps_obj (v : FPS) (w : World) : World :=
  {| cfg := cfg w; srv := srv w; _running := _running w;
     _mouse_down := _mouse_down w; _fps := _fps w; Nx := Nx w; Ny := Ny w;
     fps_obj := v; widgets := widgets w; clock := clock w; trace := trace w |}.

Definition set_widgets (v : Widgets) (w : World) : World :=
  {| cfg := cfg w; srv := srv w; _running := _running w;
     _mouse_down := _mouse_down w; _fps := _fps w; Nx := Nx w; Ny := Ny w;
     fps_obj := fps_obj w; widgets := v; clock := clock w; trace := trace w |}.

Definition set_clock (v : Q) (w : World) : World :=
  {| cfg := cfg w; srv := srv w; _running := _running w;
     _mouse_down := _mouse_down w; _fps := _fps w; Nx := Nx w; Ny := Ny w;
     fps_obj := fps_obj w; widgets := widgets w; clock := v; trace := trace w |}.

Definition set_trace (v : list Event) (w : World) : World :=
  {| cfg := cfg w; srv := srv w; _running := _running w;
     _mouse_down := _mouse_down w; _fps := _fps w; Nx := Nx w; Ny := Ny w;
     fps_obj := fps_obj w; widgets := widgets w; clock := clock w; trace := v |}.

Definition set_w_fps_value (v : Q) (w : World) : World :=
  set_widgets (upd_w_fps_value v (widgets w)) w.

Definition set_w_density_width (v : Q) (w : World) : World :=
  set_widgets (upd_w_density_width v (widgets w)) w.

Definition set_w_density_rgba (v : option Image) (w : World) : World :=
  set_widgets (upd_w_density_rgba v (widgets w)) w.

Definition set_w_density_on_update (v : bool) (w : World) : World :=
  set_widgets (upd_w_density_on_update v (widgets w)) w.

Definition set_w_finger_x_value (v : Q) (w : World) : World :=
  set_widgets (upd_w_finger_x_value v (widgets w)) w.

Definition set_w_finger_y_value (v : Q) (w : World) : World :=
  set_widgets (upd_w_finger_y_value v (widgets w)) w.

Definition set_w_msg_value (v : string) (w : World) : World :=
  set_widgets (upd_w_msg_value v (widgets w)) w.

Definition set_fps_frame (n : nat) (f : FPS) : FPS :=
  {| fps_frames := fps_frames f; fps_timeout := fps_timeout f;
     fps_elapsed_frames := fps_elapsed_frames f;
     fps_start_time := fps_start_time f; fps_frame := n;
     fps_active := fps_active f |}.

Definition set_fps_elapsed_frames (n : nat) (f : FPS) : FPS :=
  {| fps_frames := fps_frames f; fps_timeout := fps_timeout f;
     fps_elapsed_frames := n; fps_start_time := fps_start_time f;
     fps_frame := fps_frame f; fps_active := fps_active f |}.

Definition set_fps_active (b : bool) (f : FPS) : FPS :=
  {| fps_frames := fps_frames f; fps_timeout := fps_timeout f;
     fps_elapsed_frames := fps_elapsed_frames f;
     fps_start_time := fps_start_time f; fps_frame := fps_frame f;
     fps_active := b |}.

(** ** The monad: state, exceptions, fuel *)

Inductive Res (A : Type) : Type :=
| Ret (a : A) (w : World)        (* normal completion *)
| Raise (e : Exn) (w : World)    (* a Python exception propagates *)
| OutOfFuel.                     (* the fuel bound of a loop was reached *)

Arguments Ret {A} a w.
Arguments Raise {A} e w.
Arguments OutOfFuel {A}.

Definition M (A : Type) : Type := World -> Res A.

Definition ret {A} (a : A) : M A := fun w => Ret a w.

Definition bind {A B} (m : M A) (k : A -> M B) : M B :=
  fun w =>
    match m w with
    | Ret a w' => k a w'
    | Raise e w' => Raise e w'
    | OutOfFuel => OutOfFuel
    end.

Definition raise {A} (e : Exn) : M A := fun w => Raise e w.

(** [try: body finally: fin].  The [finally] block runs on both exits; an
    exception of the body is re-raised after it, unless the block itself
    raises. *)
Definition try_finally {A} (body : M A) (fin : M unit) : M A :=
  fun w =>
    match body w with
    | Ret a w' =>
        match fin w' with
        | Ret _ w'' => Ret a w''
        | Raise e w'' => Raise e w''
        | OutOfFuel => OutOfFuel
        end
    | Raise e w' =>
        match fin w' with
        | Ret _ w'' => Raise e w''
        | Raise e' w'' => Raise e' w''
        | OutOfFuel => OutOfFuel
        end
    | OutOfFuel => OutOfFuel
    end.

Declare Scope py_scope.
Delimit Scope py_scope with py.
Notation "x <- m ;; k" := (bind m (fun x => k))
  (at level 61, m at next level, right associativity) : py_scope.
Notation "m ;; k" := (bind m (fun _ => k))
  (at level 61, right associativity) : py_scope.
Local Open Scope py_scope.

Definition gets {A} (f : World -> A) : M A := fun w => Ret (f w) w.
Definition modify (f : World -> World) : M unit := fun w => Ret tt (f w).
Definition emit (e : Event) : M unit :=
  modify (fun w => set_trace (trace w ++ [e]) w).

Definition Qltb (x y : Q) : bool := negb (Qle_bool y x).

(** Python's true division. *)
Definition pydiv (x y : Q) : M Q :=
  if Qeq_bool y 0 then raise ZeroDivisionError else ret (x / y).

(** ** Host: clock and kernel *)

Definition perf_counter : M Q := gets clock.

(** [time.sleep(dt)]; a negative argument is a ValueError.  The logical
    clock moves by [dt], the least that the call can take. *)
Definition sleep (dt : Q) : M unit :=
  if Qltb dt 0 then raise ValueError
  else emit (Sleep dt) ;; modify (fun w => set_clock (clock w + dt) w).

(** [kernel.do_one_iteration()]: the host runs one pending task.  What the
    host does with it is outside this client. *)
Definition do_one_iteration : M unit := emit Pump.

(** ** Server proxy *)

Definition count_get_array (t : list Event) : nat :=
  List.length (filter (fun e => match e with SrvGetArray _ => true | _ => false end) t).

(** [self.server.get(keys)] *)
Definition server_get (keys : list string) : M unit :=
  emit (SrvGet keys) ;;
  ok <- gets (fun w => srv_get_ok (srv w) keys) ;;
  if ok then ret tt else raise ConnectionError.

(** [self.server.get_array(name)] *)
Definition server_get_array (name : string) : M Density :=
  n <- gets (fun w => count_get_array (trace w)) ;;
  emit (SrvGetArray name) ;;
  r <- gets (fun w => srv_get_array (srv w) n) ;;
  match r with
  | Some d => ret d
  | None => raise ConnectionError
  end.

(** Modelled from the spec: [server.set] and [server.do] are fire-and-forget
    for the caller (failures are logged by the proxy and never reach the
    client), so they always return. *)
Definition server_set (key : string) (value : Q) : M unit :=
  emit (SrvSet key value).

Definition server_do (command : string) : M unit :=
  emit (SrvDo command).

(** ** Frame Rate Limiter *)

(** Modelled from the spec: the operations of [contexts.FPS] (4.2).  The
    timeout has elapsed when [timeout <= now - start_time]; the limiter is
    true "while frames remain and time budget remains"; an advance ends the
    sequence when the timeout has elapsed or [max_frames] is reached, and
    otherwise yields the next index and increments the counter; entering the
    scope starts clock and counter, leaving it makes further ticks
    impossible and lets an exception of the body pass. *)
Definition FPS_timed_out (f : FPS) (now : Q) : bool :=
  match fps_timeout f with
  | None => false
  | Some T => Qle_bool T (now - fps_start_time f)
  end.

Definition FPS_bool (f : FPS) (now : Q) : bool :=
  fps_active f
  && (fps_elapsed_frames f <? fps_frames f)%nat
  && negb (FPS_timed_out f now).

Definition FPS_enter (max_frames : nat) (timeout_duration : option Q) : M unit :=
  now <- perf_counter ;;
  modify (set_fps_obj
            {| fps_frames := max_frames; fps_timeout := timeout_duration;
               fps_elapsed_frames := 0; fps_start_time := now;
               fps_frame := 0; fps_active := true |}).

Definition FPS_exit : M unit :=
  modify (fun w => set_fps_obj (set_fps_active false (fps_obj w)) w).

Definition FPS_next : M (option nat) :=
  now <- perf_counter ;;
  f <- gets fps_obj ;;
  if negb (fps_active f) || FPS_timed_out f now then ret None
  else if (fps_frames f <=? fps_elapsed_frames f)%nat then ret None
  else
    modify (set_fps_obj (set_fps_elapsed_frames (S (fps_elapsed_frames f)) f)) ;;
    ret (Some (fps_elapsed_frames f)).

(** [with FPS(frames=..., timeout=...) as fps: body] *)
Definition with_FPS {A} (max_frames : nat) (timeout_duration : option Q)
    (body : M A) : M A :=
  FPS_enter max_frames timeout_duration ;;
  try_finally body FPS_exit.

(** ** class App, class _Interrupted *)

(** [App.get_density] *)
Definition get_density : M Density := server_get_array "density".

(** [_Interrupted.__bool__], on the flag returned by [App.interrupted]: the
    flag holds a reference to the app and reads its [_running] when asked. *)
Definition _Interrupted__bool__ : M bool :=
  r <- gets _running ;;
  ret (negb r).

(** ** class NotebookApp: event handlers *)

(** [on_value_change(change)], with [change["owner"].name] and
    [change["new"]]. *)
Definition on_value_change (owner_name : string) (new : Q) : M unit :=
  r <- gets _running ;;
  if negb r then ret tt
  else server_set owner_name new.

Definition quit : M unit :=
  server_do "quit" ;;
  modify (set_running false).

(** [on_click(button)], with [button.name]. *)
Definition on_click (button_name : string) : M unit :=
  r <- gets _running ;;
  if negb r then ret tt
  else if String.eqb button_name "quit" then quit
  else server_do button_name.

(** [self._w_finger_x.value = v] and [self._w_finger_y.value = v].  The
    finger controls are interactive widgets: [get_widget] binds them (lines
    216-217) and registers [on_value_change] as the observer of the value of
    every interactive widget (lines 222-223), in the same call that
    registers the pointer handlers (line 226).  So the assignment stores the
    value and the toolkit answers it by calling [on_value_change] with the
    widget as owner (its name is its key among the interactive widgets,
    [finger_x] or [finger_y]) and the value as new. *)
Definition assign_finger_x (v : Q) : M unit :=
  modify (set_w_finger_x_value v) ;;
  on_value_change "finger_x" v.

Definition assign_finger_y (v : Q) : M unit :=
  modify (set_w_finger_y_value v) ;;
  on_value_change "finger_y" v.

(** [_set_finger]: the last statement evaluates the names [finger_x] and
    [finger_y], which are bound nowhere (neither locally nor in the module
    nor as builtins), so reaching it raises NameError before anything is
    appended to [_xy]. *)
Definition _set_finger (x y : Q) : M unit :=
  width <- gets (fun w => w_density_width (widgets w)) ;;
  vx <- pydiv x width ;;
  assign_finger_x vx ;;
  height <- gets (fun w => w_density_height (widgets w)) ;;
  qy <- pydiv y height ;;
  assign_finger_y (1 - qy) ;;
  raise (NameError "finger_x").

Definition _handle_mouse_move (x y : Q) : M unit :=
  down <- gets _mouse_down ;;
  if down then _set_finger x y else ret tt.

Definition _handle_mouse_down (x y : Q) : M unit :=
  modify (set_mouse_down true) ;;
  _set_finger x y.

Definition _handle_mouse_up (x y : Q) : M unit :=
  modify (set_mouse_down false).

Definition _handle_mouse_out (x y : Q) : M unit :=
  modify (set_mouse_down false).

(** ** Frame Synchronizer, Update Cycle, Session Driver *)

Section Session.

(** Two members of [contexts.FPS] that this file uses and the spec leaves
    open are parameters: the attribute [fps.fps] and the string form
    [str(fps)], both as functions of the limiter and the current time. *)
Variable FPS_fps : FPS -> Q -> Q.
Variable FPS_str : FPS -> Q -> string.

(** The [while tok < t_continue] loop of [sync]. *)
Fixpoint sync_wait (fuel : nat) (t_continue tok : Q) : M unit :=
  if Qltb tok t_continue then
    match fuel with
    | O => fun _ => OutOfFuel
    | S fuel' =>
        do_one_iteration ;;
        tok1 <- perf_counter ;;
        poll <- gets (fun w => _poll_interval (cfg w)) ;;
        let dt := Qmin poll (t_continue - tok1) in
        (if Qltb 0 dt then sleep dt else ret tt) ;;
        tok2 <- perf_counter ;;
        sync_wait fuel' t_continue tok2
    end
  else ret tt.

(** [max(self._w_fps.value, 1)]: the rate by which [sync] divides. *)
Definition sync_rate (w : World) : Q := Qmax (w_fps_value (widgets w)) 1.

(** The [finally] block of [sync]. *)
Definition sync_exit (fuel : nat) (tic : Q) : M unit :=
  do_one_iteration ;;
  rate <- gets sync_rate ;;
  period <- pydiv 1 rate ;;
  let t_continue := tic + period in
  tok <- perf_counter ;;
  sync_wait fuel t_continue tok.

(** [with self.sync(): body] *)
Definition sync {A} (fuel : nat) (body : M A) : M A :=
  tic <- perf_counter ;;
  try_finally body (sync_exit fuel tic).

(** The body of the [with self.sync()] block of [update_frame]. *)
Definition update_frame_body : M unit :=
  density <- get_density ;;
  let img := get_rgba_from_density density in
  modify (set_w_density_rgba (Some img)) ;;
  emit (Render img) ;;
  modify (fun w => set_fps_obj (set_fps_frame (S (fps_frame (fps_obj w))) (fps_obj w)) w) ;;
  now <- perf_counter ;;
  f <- gets fps_obj ;;
  modify (set_w_msg_value (FPS_str f now ++ "fps")).

Definition update_frame (fuel : nat) : M unit :=
  now <- perf_counter ;;
  bound <- gets _fps ;;
  f <- gets fps_obj ;;
  r <- gets _running ;;
  if negb (bound && FPS_bool f now) || negb r then ret tt
  else sync fuel update_frame_body.

(** A call of [update_frame] from [run], marked in the trace. *)
Definition call_update_frame (fuel : nat) : M unit :=
  emit CallUpdateFrame ;;
  update_frame fuel.

(** [get_widget], as far as the modelled state goes: the layout is fetched
    from the server and the density widget gets its initial width.  The
    handlers that it registers are not state of the model: the observer of
    the interactive widgets is part of [assign_finger_x] and
    [assign_finger_y], the button and pointer handlers are what the host
    calls. *)
Definition get_widget : M unit :=
  server_get ["layout"] ;;
  modify (set_w_density_width 500).

(** [max(1, fps.fps)]: the rate by which the loop of [run] divides; [fps]
    is the limiter object, read at the current time. *)
Definition poll_rate (w : World) : Q := Qmax 1 (FPS_fps (fps_obj w) (clock w)).

(** [int(math.ceil(1 / max(1, fps.fps) / kernel._poll_interval))] *)
Definition poll_count : M nat :=
  rate <- gets poll_rate ;;
  period <- pydiv 1 rate ;;
  poll <- gets (fun w => _poll_interval (cfg w)) ;;
  n <- pydiv period poll ;;
  ret (Z.to_nat (Qceiling n)).

(** [for n in range(count): kernel.do_one_iteration()] *)
Fixpoint polls (count : nat) : M unit :=
  match count with
  | O => ret tt
  | S count' => do_one_iteration ;; polls count'
  end.

(** The [for frame in fps] loop of [run]; [wait] bounds the waits of
    [sync], [fuel] the number of advances of the limiter. *)
Fixpoint for_frames (wait fuel : nat) : M unit :=
  match fuel with
  | O => fun _ => OutOfFuel
  | S fuel' =>
      next <- FPS_next ;;
      match next with
      | None => ret tt
      | Some frame =>
          r <- gets _running ;;
          if negb r then ret tt
          else
            call_update_frame wait ;;
            count <- poll_count ;;
            polls count ;;
            for_frames wait fuel'
      end
  end.

(** The [while fps and self._running] loop of the browser-driven mode.
    The callbacks that the browser sends arrive through the kernel and are
    not part of this client. *)
Fixpoint browser_loop (fuel : nat) : M unit :=
  now <- perf_counter ;;
  f <- gets fps_obj ;;
  r <- gets _running ;;
  if FPS_bool f now && r then
    match fuel with
    | O => fun _ => OutOfFuel
    | S fuel' =>
        do_one_iteration ;;
        poll <- gets (fun w => _poll_interval (cfg w)) ;;
        sleep poll ;;
        browser_loop fuel'
    end
  else ret tt.

(** The [with FPS(...) as fps] block of [run]. *)
Definition run_frames (fuel : nat) : M unit :=
  max_frames <- gets (fun w => frames (cfg w)) ;;
  timeout_duration <- gets (fun w => timeout (cfg w)) ;;
  with_FPS max_frames timeout_duration
    (modify (set_fps true) ;;
     browser <- gets (fun w => browser_control (cfg w)) ;;
     if browser then
       modify (set_w_density_on_update true) ;;
       call_update_frame fuel ;;
       browser_loop fuel ;;
       modify (set_w_density_on_update false)
     else for_frames fuel fuel).

(** What follows the [with] block in [run]. *)
Definition run_finish : M unit :=
  modify (set_fps false) ;;
  r <- gets _running ;;
  if r then quit else ret tt.

(** [NotebookApp.run], with a server already attached. *)
Definition run (fuel : nat) : M unit :=
  server_get ["Nx"; "Ny"] ;;
  grid <- gets (fun w => srv_grid (srv w)) ;;
  modify (set_Nx (fst grid)) ;;
  modify (set_Ny (snd grid)) ;;
  get_widget ;;
  emit Display ;;
  nx <- gets Nx ;;
  ny <- gets Ny ;;
  _ <- pydiv (inject_Z ny) (inject_Z nx) ;;
  modify (set_w_density_width (inject_Z (Z.max 500 nx))) ;;
  rate <- gets (fun w => opts_fps (cfg w)) ;;
  modify (set_w_fps_value rate) ;;
  run_frames fuel ;;
  run_finish.

End Session.

(** ** Observations *)

(** The world in which a computation ended, if it ended. *)
Definition world_of {A} (r : Res A) : option World :=
  match r with
  | Ret _ w => Some w
  | Raise _ w => Some w
  | OutOfFuel => None
  end.

(** The exception with which a computation ended, if it raised one. *)
Definition raised {A} (r : Res A) : option Exn :=
  match r with
  | Raise e _ => Some e
  | _ => None
  end.

(** The same outcome in another final world. *)
Definition with_world {A} (r : Res A) (w' : World) : Res A :=
  match r with
  | Ret a _ => Ret a w'
  | Raise e _ => Raise e w'
  | OutOfFuel => OutOfFuel
  end.

Definition count (p : Event -> bool) (t : list Event) : nat :=
  List.length (filter p t).

Definition is_get_array (e : Event) : bool :=
  match e with SrvGetArray _ => true | _ => false end.

Definition is_quit (e : Event) : bool :=
  match e with SrvDo command => String.eqb command "quit" | _ => false end.

Definition is_render (e : Event) : bool :=
  match e with Render _ => true | _ => false end.

Definition is_call (e : Event) : bool :=
  match e with CallUpdateFrame => true | _ => false end.

(** Work of the host only: a scheduler tick or a sleep. *)
Definition is_host (e : Event) : bool :=
  match e with Pump | Sleep _ => true | _ => false end.

(** TargetRate of the data model: the value of the rate control. *)
Definition TargetRate (w : World) : Q := w_fps_value (widgets w).

(** Everything but the clock and the trace. *)
Definition client_of (w : World) :=
  (cfg w, srv w, _running w, _mouse_down w, _fps w, Nx w, Ny w, fps_obj w,
   widgets w).

(** The pacing of the Frame Synchronizer, in the words of the spec (4.4 c):
    while [now < deadline], yield a scheduler tick and sleep for
    [min(poll, deadline - now)].  [Paced poll deadline now evs now'] holds
    when [evs] is that sequence of events, started at time [now] and ended
    at time [now']. *)
Inductive Paced (poll deadline : Q) : Q -> list Event -> Q -> Prop :=
| Paced_done : forall now,
    deadline <= now ->
    Paced poll deadline now [] now
| Paced_step : forall now evs now',
    now < deadline ->
    Paced poll deadline (now + Qmin poll (deadline - now)) evs now' ->
    Paced poll deadline now
      (Pump :: Sleep (Qmin poll (deadline - now)) :: evs) now'.

(** The frame period of the Frame Synchronizer. *)
Definition period (w : World) : Q := 1 / sync_rate w.

(** [k] frame periods fit in the session timeout. *)
Definition timeout_allows (k : nat) (w : World) : Prop :=
  match timeout (cfg w) with
  | None => True
  | Some T => inject_Z (Z.of_nat k) * (1 / Qmax (opts_fps (cfg w)) 1) < T
  end.

(** What the Update Cycle never writes: configuration, server, RunState,
    PointerState, the binding of [self._fps] and the grid size. *)
Definition session_of (w : World) :=
  (cfg w, srv w, _running w, _mouse_down w, _fps w, Nx w, Ny w).

(** The limiter's budget: everything but the display counter [frame]. *)
Definition budget_of (f : FPS) :=
  (fps_frames f, fps_timeout f, fps_elapsed_frames f, fps_start_time f,
   fps_active f).

(** What the frame loop of a session never changes: the session state, the
    fixed part of the limiter's budget and the target rate. *)
Definition static_of (w : World) :=
  (session_of w, fps_frames (fps_obj w), fps_timeout (fps_obj w),
   fps_start_time (fps_obj w), fps_active (fps_obj w), TargetRate w).

(** [n] frame periods end before the limiter's timeout. *)
Definition in_time (n : nat) (w : World) : Prop :=
  match fps_timeout (fps_obj w) with
  | None => True
  | Some T => inject_Z (Z.of_nat n) * period w < T
  end.

(** A self-driven session at the head of its frame loop after [i] advances
    of the limiter: running, the limiter bound and active, and no more than
    [i] frame periods into the session. *)
Record AtLoopHead (i : nat) (w : World) : Prop := mkAtLoopHead {
  head_running : _running w = true;
  head_bound : _fps w = true;
  head_active : fps_active (fps_obj w) = true;
  head_elapsed : fps_elapsed_frames (fps_obj w) = i;
  head_poll : 0 < _poll_interval (cfg w);
  head_clock : clock w - fps_start_time (fps_obj w)
               <= inject_Z (Z.of_nat i) * period w
}.

(** The events of [k] frames that were fetched and rendered. *)
Definition frames_done (k : nat) (evs : list Event) : Prop :=
  count is_call evs = k /\ count is_get_array evs = k
  /\ count is_render evs = k /\ count is_quit evs = 0%nat.

(** ** Scenarios *)

(** A sample limiter rate: frames counted so far over the time since the
    scope was entered (zero before any time has passed). *)
Definition measured_fps (f : FPS) (now : Q) : Q :=
  if Qltb (fps_start_time f) now
  then inject_Z (Z.of_nat (fps_frame f)) / (now - fps_start_time f)
  else 0.

(** A sample string form of the limiter. *)
Definition plain_str (f : FPS) (now : Q) : string := "".

Definition no_widgets : Widgets :=
  {| w_fps_value := 1; w_density_width := 500; w_density_height := 300;
     w_density_rgba := None; w_density_on_update := false;
     w_finger_x_value := 0; w_finger_y_value := 0; w_msg_value := "" |}.

(** A fresh self-driven client: [max_frames] frames, no timeout, 10 frames
    per second, a poll interval of 1/20 s, a 64 x 64 grid, and a server
    whose [get_array] fails at the calls listed in [failing]. *)
Definition fresh_client (max_frames : nat) (failing : list nat) : World :=
  {| cfg := {| frames := max_frames; timeout := None;
               browser_control := false; opts_fps := 10;
               _poll_interval := 1 # 20 |};
     srv := {| srv_get_ok := fun _ => true;
               srv_grid := (64%Z, 64%Z);
               srv_get_array := fun n =>
                 if existsb (Nat.eqb n) failing then None else Some [] |};
     _running := true; _mouse_down := false; _fps := false;
     Nx := 0; Ny := 0;
     fps_obj := mkFPS 0 None 0 0 0 false;
     widgets := no_widgets;
     clock := 0; trace := [] |}.

(** A fresh browser-driven client whose first [get_array] fails. *)
Definition browser_client : World :=
  {| cfg := {| frames := 5; timeout := Some (1800 # 1);
               browser_control := true; opts_fps := 10;
               _poll_interval := 1 # 20 |};
     srv := srv (fresh_client 5 [0%nat]);
     _running := true; _mouse_down := false; _fps := false;
     Nx := 0; Ny := 0;
     fps_obj := mkFPS 0 None 0 0 0 false;
     widgets := no_widgets;
     clock := 0; trace := [] |}.

(** A client that has stopped. *)
Definition stopped_client : World := set_running false (fresh_client 5 []).

(** A client one frame into a session at 10 frames per second whose rate
    control has just been moved to 20. *)
Definition retuned_client : World :=
  set_w_fps_value 20
    (set_clock (1 # 10)
       (set_fps_obj (mkFPS 5 None 1 0 1 true) (set_fps true (fresh_client 5 [])))).

(** A fresh client whose server answers no [get]. *)
Definition deaf_client : World :=
  {| cfg := cfg (fresh_client 5 []);
     srv := {| srv_get_ok := fun _ => false; srv_grid := (64%Z, 64%Z);
               srv_get_array := fun _ => None |};
     _running := true; _mouse_down := false; _fps := false;
     Nx := 0; Ny := 0;
     fps_obj := mkFPS 0 None 0 0 0 false;
     widgets := no_widgets;
     clock := 0; trace := [] |}.

(** A fresh client whose server answers [get(["Nx", "Ny"])] but not
    [get(["layout"])]. *)
Definition bare_client : World :=
  {| cfg := cfg (fresh_client 5 []);
     srv := {| srv_get_ok := fun keys => match keys with
                                         | [_; _] => true
                                         | _ => false
                                         end;
               srv_grid := (64%Z, 32%Z);
               srv_get_array := fun _ => Some [] |};
     _running := true; _mouse_down := false; _fps := false;
     Nx := 0; Ny := 0;
     fps_obj := mkFPS 0 None 0 0 0 false;
     widgets := no_widgets;
     clock := 0; trace := [] |}.

(** A fresh client whose server reports a grid with [Nx = 0]. *)
Definition flat_client : World :=
  {| cfg := cfg (fresh_client 5 []);
     srv := {| srv_get_ok := fun _ => true; srv_grid := (0%Z, 64%Z);
               srv_get_array := fun _ => Some [] |};
     _running := true; _mouse_down := false; _fps := false;
     Nx := 0; Ny := 0;
     fps_obj := mkFPS 0 None 0 0 0 false;
     widgets := no_widgets;
     clock := 0; trace := [] |}.

(** The client [retuned_client] with a server whose next [get_array]
    fails. *)
Definition failing_frame_client : World :=
  set_w_fps_value 20
    (set_clock (1 # 10)
       (set_fps_obj (mkFPS 5 None 1 0 1 true)
          (set_fps true (fresh_client 5 [0%nat])))).


(** ** The client in the hands of its host *)

(** A call that the host makes on the client: an event handler registered
    by [get_widget], the callback [update_frame] of the browser-driven mode,
    or [run] itself.  ([quit] is not among them: it is reached through
    [on_click] and [run].) *)
Inductive Action : Type :=
| ValueChange (owner_name : string) (new : Q)
| Click (button_name : string)
| MouseDown (x y : Q)
| MouseMove (x y : Q)
| MouseUp (x y : Q)
| MouseOut (x y : Q)
| UpdateFrame (fuel : nat)
| Run (fuel : nat).

Section Host.

Variable FPS_fps : FPS -> Q -> Q.
Variable FPS_str : FPS -> Q -> string.

Definition act (a : Action) : M unit :=
  match a with
  | ValueChange owner_name new => on_value_change owner_name new
  | Click button_name => on_click button_name
  | MouseDown x y => _handle_mouse_down x y
  | MouseMove x y => _handle_mouse_move x y
  | MouseUp x y => _handle_mouse_up x y
  | MouseOut x y => _handle_mouse_out x y
  | UpdateFrame fuel => update_frame FPS_str fuel
  | Run fuel => run FPS_fps FPS_str fuel
  end.

(** Calls made one after the other, up to the first that raises. *)
Fixpoint perform (calls : list Action) : M unit :=
  match calls with
  | [] => ret tt
  | a :: calls' => act a ;; perform calls'
  end.

(** The world after the host has made call after call; a call that raises
    leaves its world behind like one that returns, and a call that runs out
    of fuel ends the sequence. *)
Fixpoint after (calls : list Action) (w : World) : World :=
  match calls with
  | [] => w
  | a :: calls' =>
      match world_of (act a w) with
      | Some w1 => after calls' w1
      | None => w
      end
  end.

End Host.

(** The server call that a control event stands for. *)
Definition forwarded (a : Action) : list Event :=
  match a with
  | ValueChange owner_name new => [SrvSet owner_name new]
  | Click button_name => [SrvDo button_name]
  | _ => []
  end.

(** A value change, or a click on a button other than quit. *)
Definition is_control (a : Action) : bool :=
  match a with
  | ValueChange _ _ => true
  | Click button_name => negb (String.eqb button_name "quit")
  | _ => false
  end.

(** A control value forwarded: [server.set]. *)
Definition is_set (e : Event) : bool :=
  match e with
  | SrvSet _ _ => true
  | _ => false
  end.

(** A frame fetched, a control forwarded or a command sent. *)
Definition is_traffic (e : Event) : bool :=
  match e with
  | SrvGetArray _ | SrvSet _ _ | SrvDo _ => true
  | _ => false
  end.

(** RunState together with the number of watched events so far. *)
Definition view (p : Event -> bool) (w : World) : bool * nat :=
  (_running w, count p (trace w)).


(** ** get_image *)

(** An image as [get_image] receives it: height x width x channels. *)
Definition Pixel := list Z.
Definition Pixels := list (list Pixel).

(** [str.lower], on ASCII. *)
Definition lower_ascii (c : ascii) : ascii :=
  let n := nat_of_ascii c in
  if (65 <=? n)%nat && (n <=? 90)%nat then ascii_of_nat (n + 32) else c.

Fixpoint lower (s : string) : string :=
  match s with
  | EmptyString => EmptyString
  | String c s' => String (lower_ascii c) (lower s')
  end.

(** [rgba[..., :3]]: the first three channels of every pixel. *)
Definition drop_alpha (rgba : Pixels) : Pixels :=
  map (map (firstn 3)) rgba.

Section Image.

(** The encoder of PIL is external: [PIL_save fmt a] stands for the bytes
    that [PIL.Image.fromarray(a).save(b, fmt)] writes to [b]. *)
Variable PIL_save : string -> Pixels -> list Byte.byte.

(** [get_image(rgba)], with the attribute [self.fmt]. *)
Definition get_image (fmt : string) (rgba : Pixels)
    : M (option (list Byte.byte)) :=
  r <- gets _running ;;
  if negb r then ret None
  else
    let rgba' :=
      if String.eqb (lower fmt) "jpeg" then drop_alpha rgba else rgba in
    ret (Some (PIL_save fmt rgba')).

End Image.

(** ** Invariants of the trace *)

(** A triple for the monad: from a world in [P], [m] returns in a world in
    [Post] or raises in a world in [E] (or runs out of fuel). *)
Definition hoare {A} (P : World -> Prop) (m : M A)
    (Post E : World -> Prop) : Prop :=
  forall w, P w ->
    match m w with
    | Ret _ w' => Post w'
    | Raise _ w' => E w'
    | OutOfFuel => True
    end.

(** [m] keeps the view at [v]: RunState and the number of events in [p]
    are the same when it ends, however it ends. *)
Definition keeps (p : Event -> bool) (v : bool * nat) {A} (m : M A) : Prop :=
  hoare (fun w => view p w = v) m
    (fun w => view p w = v) (fun w => view p w = v).

(** * Properties *)

(** ** Tactics and basic facts *)

Ltac run_monad :=
  unfold bind, gets, modify, emit, ret, raise, perf_counter; simpl.

Lemma Qltb_true (x y : Q) : Qltb x y = true <-> x < y.
Proof.
  unfold Qltb. rewrite negb_true_iff.
  split; intro H.
  - apply Qnot_le_lt. intro L. apply Qle_bool_iff in L. congruence.
  - destruct (Qle_bool y x) eqn:E; [|reflexivity].
    apply Qle_bool_iff in E. apply Qle_not_lt in E. contradiction.
Qed.

Lemma Qltb_false (x y : Q) : Qltb x y = false <-> y <= x.
Proof.
  unfold Qltb. rewrite negb_false_iff. apply Qle_bool_iff.
Qed.

Lemma pydiv_nonzero (x y : Q) (w : World) :
  ~ y == 0 -> pydiv x y w = Ret (x / y) w.
Proof.
  intro H. unfold pydiv.
  destruct (Qeq_bool y 0) eqn:E; [|reflexivity].
  apply Qeq_bool_iff in E. contradiction.
Qed.

(** ** Interruption Flag *)

(** C6: the Interruption Flag is true exactly when RunState is Stopped; its
    value is a function of [_running] alone and asking for it leaves the
    world as it was. *)
Theorem interruption_flag_is_run_state : forall w : World,
  _Interrupted__bool__ w = Ret (negb (_running w)) w
  /\ (negb (_running w) = true <-> run_state w = Stopped).
Proof.
  intro w. split.
  - reflexivity.
  - unfold run_state. destruct (_running w); simpl; split; congruence.
Qed.

(** ** Control-Event Router *)

(** C7: a value-change event is ignored when RunState is Stopped (the world,
    and so the trace of server calls, is unchanged); otherwise exactly
    [set({changed_field: new_value})] is sent. *)
Theorem value_change_forwarded_iff_running :
  forall (changed_field : string) (new_value : Q) (w : World),
    on_value_change changed_field new_value w =
    match run_state w with
    | Stopped => Ret tt w
    | Running =>
        Ret tt (set_trace (trace w ++ [SrvSet changed_field new_value]) w)
    end.
Proof.
  intros f v w. unfold on_value_change, run_state, server_set. run_monad.
  destruct (_running w); reflexivity.
Qed.

Lemma on_click_quit_stopped (w : World) :
  _running w = false -> on_click "quit" w = Ret tt w.
Proof.
  intro H. unfold on_click. run_monad. rewrite H. reflexivity.
Qed.

Lemma quit_stops (w : World) :
  quit w = Ret tt (set_running false (set_trace (trace w ++ [SrvDo "quit"]) w)).
Proof. reflexivity. Qed.

(** C2, as the code has it: the quit sequence is idempotent through its
    guarded entry points, a click on the quit button and the end of [run].
    Done twice they act as done once, and once RunState is Stopped they
    issue no [do("quit")]: the click changes nothing at all and the end of
    [run] leaves trace and RunState alone.  The method [quit] itself always
    ends in Stopped. *)
Theorem guarded_quit_idempotent : forall w : World,
  (on_click "quit" ;; on_click "quit") w = on_click "quit" w
  /\ (run_finish ;; run_finish) w = run_finish w
  /\ (run_state w = Stopped ->
      on_click "quit" w = Ret tt w
      /\ exists w', run_finish w = Ret tt w'
                    /\ trace w' = trace w /\ run_state w' = Stopped)
  /\ exists w', quit w = Ret tt w' /\ run_state w' = Stopped.
Proof.
  intro w. repeat split.
  - unfold on_click, quit, server_do. run_monad.
    destruct (_running w) eqn:E; simpl; [reflexivity | rewrite E; reflexivity].
  - unfold run_finish, quit, server_do. run_monad.
    destruct (_running w) eqn:E; simpl; rewrite ?E; reflexivity.
  - apply on_click_quit_stopped.
    unfold run_state in H. destruct (_running w); congruence.
  - unfold run_state in H. unfold run_finish. run_monad.
    destruct (_running w) eqn:E; [discriminate|].
    eexists. split; [reflexivity|]. simpl. unfold run_state. simpl.
    rewrite E. split; reflexivity.
  - eexists. split; [apply quit_stops | reflexivity].
Qed.

(** The guarded quit at a client that has stopped. *)
Lemma guarded_quit_at_stopped_client :
  on_click "quit" stopped_client = Ret tt stopped_client
  /\ exists w', run_finish stopped_client = Ret tt w'
                /\ trace w' = trace stopped_client /\ run_state w' = Stopped.
Proof.
  exact (proj1 (proj2 (proj2 (guarded_quit_idempotent stopped_client)))
           eq_refl).
Defined.

(** C2, as stated, fails for the method [quit]: called again when the client
    has already stopped it sends [do("quit")] a second time. *)
Lemma quit_twice_sends_quit_twice :
  option_map run_state (world_of (quit (fresh_client 5 []))) = Some Stopped
  /\ option_map trace (world_of (quit (fresh_client 5 [])))
     = Some [SrvDo "quit"]
  /\ option_map trace (world_of ((quit ;; quit) (fresh_client 5 [])))
     = Some [SrvDo "quit"; SrvDo "quit"].
Proof. repeat split. Qed.

(** ** Pointer events *)

Lemma assign_finger_x_runs (v : Q) (w : World) :
  assign_finger_x v w
  = Ret tt (if _running w
            then set_trace (trace w ++ [SrvSet "finger_x" v])
                   (set_w_finger_x_value v w)
            else set_w_finger_x_value v w).
Proof.
  unfold assign_finger_x, on_value_change, server_set. run_monad.
  destruct (_running w); reflexivity.
Qed.

Lemma assign_finger_y_runs (v : Q) (w : World) :
  assign_finger_y v w
  = Ret tt (if _running w
            then set_trace (trace w ++ [SrvSet "finger_y" v])
                   (set_w_finger_y_value v w)
            else set_w_finger_y_value v w).
Proof.
  unfold assign_finger_y, on_value_change, server_set. run_monad.
  destruct (_running w); reflexivity.
Qed.

Lemma set_finger_raises (x y : Q) (w : World) :
  ~ w_density_width (widgets w) == 0 ->
  ~ w_density_height (widgets w) == 0 ->
  exists w',
    _set_finger x y w = Raise (NameError "finger_x") w'
    /\ w_finger_x_value (widgets w') = x / w_density_width (widgets w)
    /\ w_finger_y_value (widgets w') = 1 - y / w_density_height (widgets w)
    /\ _running w' = _running w
    /\ _mouse_down w' = _mouse_down w
    /\ trace w'
       = (trace w
          ++ if _running w
             then [SrvSet "finger_x" (x / w_density_width (widgets w));
                   SrvSet "finger_y" (1 - y / w_density_height (widgets w))]
             else [])%list
    /\ w_density_width (widgets w') = w_density_width (widgets w)
    /\ w_density_height (widgets w') = w_density_height (widgets w).
Proof.
  intros HW HH. unfold _set_finger. unfold bind at 1. unfold gets at 1.
  unfold bind at 1. rewrite (pydiv_nonzero _ _ _ HW).
  unfold bind at 1. rewrite assign_finger_x_runs.
  destruct (_running w) eqn:R.
  - run_monad. rewrite (pydiv_nonzero _ _ _ HH).
    rewrite assign_finger_y_runs. simpl. rewrite R.
    eexists. split; [reflexivity|]. simpl.
    rewrite <- app_assoc. repeat split. exact R.
  - run_monad. rewrite (pydiv_nonzero _ _ _ HH).
    rewrite assign_finger_y_runs. simpl. rewrite R.
    eexists. split; [reflexivity|]. simpl.
    rewrite app_nil_r. repeat split. exact R.
Qed.







(** ** Frame Synchronizer *)

Lemma inject_nat_succ (n : nat) :
  inject_Z (Z.of_nat (S n)) == inject_Z (Z.of_nat n) + 1.
Proof.
  rewrite Nat2Z.inj_succ. unfold Z.succ. rewrite inject_Z_plus. reflexivity.
Qed.

Lemma sync_wait_runs : forall (n : nat) (tc tok : Q) (w : World),
  tok = clock w ->
  0 < _poll_interval (cfg w) ->
  tc - tok <= inject_Z (Z.of_nat n) * _poll_interval (cfg w) ->
  exists w',
    sync_wait n tc tok w = Ret tt w'
    /\ client_of w' = client_of w
    /\ (exists evs, trace w' = (trace w ++ evs)%list
                    /\ Paced (_poll_interval (cfg w)) tc tok evs (clock w'))
    /\ tc <= clock w'
    /\ (tok < tc -> clock w' == tc)
    /\ (tc <= tok -> w' = w).
Proof.
  induction n as [|n IH]; intros tc tok w Htok Hp Hb.
  - simpl. destruct (Qltb tok tc) eqn:E.
    + apply Qltb_true in E. change (inject_Z (Z.of_nat 0)) with 0 in Hb. lra.
    + apply Qltb_false in E. exists w. repeat split.
      * exists []. rewrite app_nil_r. split; [reflexivity|].
        rewrite <- Htok. constructor. exact E.
      * rewrite <- Htok. exact E.
      * intro. lra.
  - simpl. destruct (Qltb tok tc) eqn:E.
    + apply Qltb_true in E.
      unfold do_one_iteration. run_monad.
      subst tok.
      set (poll := _poll_interval (cfg w)) in *.
      set (dt := Qmin poll (tc - clock w)).
      assert (Hdt : 0 < dt /\ dt <= poll /\ dt <= tc - clock w
                    /\ (dt == poll \/ dt == tc - clock w)).
      { unfold dt. destruct (Q.min_spec poll (tc - clock w)) as [[L Em]|[L Em]];
          rewrite Em; repeat split; try lra; auto. }
      destruct Hdt as [Hpos [Hle1 [Hle2 Hor]]].
      assert (T1 : Qltb 0 dt = true) by (apply Qltb_true; exact Hpos).
      assert (T2 : Qltb dt 0 = false) by (apply Qltb_false; lra).
      rewrite T1. unfold sleep. rewrite T2. run_monad.
      match goal with
      | |- context [sync_wait n tc ?c ?w2] =>
          destruct (IH tc c w2) as [w' [R [C [[evs [Tr P]] [G [Lt Ge]]]]]]
      end.
      * reflexivity.
      * exact Hp.
      * simpl. fold poll. rewrite inject_nat_succ in Hb.
        destruct Hor as [Ep|Er]; rewrite ?Ep, ?Er.
        -- lra.
        -- assert (0 <= inject_Z (Z.of_nat n)).
           { change 0 with (inject_Z 0). rewrite <- Zle_Qle. lia. }
           nra.
      * exists w'. split; [exact R|]. split; [exact C|].
        split; [|split; [exact G|split]].
        -- exists (Pump :: Sleep dt :: evs). split.
           ++ rewrite Tr. simpl. rewrite <- !app_assoc. reflexivity.
           ++ constructor; [exact E|]. exact P.
        -- intros _. simpl in Lt, Ge.
           destruct (Qlt_le_dec (clock w + dt) tc) as [L|L].
           ++ apply Lt. exact L.
           ++ rewrite (Ge L). simpl. lra.
        -- intro. lra.
    + apply Qltb_false in E. exists w. repeat split.
      * exists []. rewrite app_nil_r. split; [reflexivity|].
        rewrite <- Htok. constructor. exact E.
      * rewrite <- Htok. exact E.
      * intro. lra.
Qed.

Lemma inject_nat_nonneg (n : nat) : 0 <= inject_Z (Z.of_nat n).
Proof. change 0 with (inject_Z 0). rewrite <- Zle_Qle. lia. Qed.

Lemma inject_nat_le (n m : nat) :
  (n <= m)%nat -> inject_Z (Z.of_nat n) <= inject_Z (Z.of_nat m).
Proof. intro H. rewrite <- Zle_Qle. lia. Qed.

(** Some number of polls covers any span. *)
Lemma polls_cover (x p : Q) :
  0 < p -> exists n : nat, x <= inject_Z (Z.of_nat n) * p.
Proof.
  intro Hp. exists (Z.to_nat (Qceiling (x / p))).
  assert (Hc := Qle_ceiling (x / p)).
  assert (Hx : x == (x / p) * p) by (field; lra).
  destruct (Z_le_gt_dec 0 (Qceiling (x / p))) as [L|L].
  - rewrite Z2Nat.id by exact L. rewrite Hx at 1.
    apply Qmult_le_compat_r; [exact Hc | lra].
  - assert (Hneg : inject_Z (Qceiling (x / p)) <= 0).
    { change 0 with (inject_Z 0). rewrite <- Zle_Qle. lia. }
    assert (Z.to_nat (Qceiling (x / p)) = 0%nat) as -> by lia.
    simpl. assert (x / p <= 0) by lra.
    assert (H0 : (x / p) * p <= 0 * p) by (apply Qmult_le_compat_r; lra).
    apply Qle_trans with ((x / p) * p); [|exact H0].
    apply Qle_lteq. right. exact Hx.
Qed.

Lemma sync_rate_ge_1 (w : World) : 1 <= sync_rate w.
Proof. unfold sync_rate. apply Q.le_max_r. Qed.

Lemma period_bounds (w : World) : 0 < period w /\ period w <= 1.
Proof.
  unfold period. assert (H := sync_rate_ge_1 w).
  set (r := sync_rate w) in *.
  assert (Hr : 0 < r) by lra.
  assert (E : 1 / r == / r) by (field; lra).
  rewrite E. split.
  - apply Qinv_lt_0_compat. exact Hr.
  - apply Qle_shift_inv_r; [exact Hr | lra].
Qed.

Lemma Paced_host (poll deadline now now' : Q) (evs : list Event) :
  Paced poll deadline now evs now' -> forallb is_host evs = true.
Proof. induction 1; simpl; auto. Qed.

(** The [finally] block of [sync] with enough fuel: one scheduler tick,
    then the paced wait for [tic + 1 / max(rate, 1)]. *)
Lemma sync_exit_runs (fuel : nat) (tic : Q) (w : World) :
  0 < _poll_interval (cfg w) ->
  tic + period w - clock w <= inject_Z (Z.of_nat fuel) * _poll_interval (cfg w) ->
  exists w',
    sync_exit fuel tic w = Ret tt w'
    /\ client_of w' = client_of w
    /\ (exists evs,
          trace w' = (trace w ++ Pump :: evs)%list
          /\ Paced (_poll_interval (cfg w)) (tic + period w) (clock w) evs
               (clock w'))
    /\ tic + period w <= clock w'
    /\ (clock w < tic + period w -> clock w' == tic + period w).
Proof.
  intros Hp Hb. unfold sync_exit, do_one_iteration. run_monad.
  rewrite pydiv_nonzero
    by (assert (H := sync_rate_ge_1 w); unfold sync_rate in *; simpl; lra).
  simpl.
  match goal with
  | |- context [sync_wait fuel ?tc ?c ?w1] =>
      destruct (sync_wait_runs fuel tc c w1)
        as [w' [R [C [[evs [Tr P]] [G [Lt _]]]]]]
  end; [reflexivity | exact Hp | exact Hb |].
  exists w'. split; [exact R|]. split; [exact C|]. split; [|split].
  - exists evs. split; [|exact P].
    rewrite Tr. simpl. rewrite <- app_assoc. reflexivity.
  - exact G.
  - exact Lt.
Qed.

(** With any fuel, the wait of [sync] touches only clock and trace and
    raises nothing. *)
Lemma sync_wait_client (fuel : nat) : forall (tc tok : Q) (w : World),
  match sync_wait fuel tc tok w with
  | Ret _ w' => client_of w' = client_of w
  | Raise _ _ => False
  | OutOfFuel => True
  end.
Proof.
  induction fuel as [|n IH]; intros tc tok w; simpl.
  - destruct (Qltb tok tc); [exact I | reflexivity].
  - destruct (Qltb tok tc); [|reflexivity].
    unfold do_one_iteration. run_monad.
    destruct (Qltb 0 (Qmin (_poll_interval (cfg w)) (tc - clock w))) eqn:E.
    + unfold sleep. apply Qltb_true in E.
      assert (T : Qltb (Qmin (_poll_interval (cfg w)) (tc - clock w)) 0 = false)
        by (apply Qltb_false; lra).
      rewrite T. run_monad.
      match goal with
      | |- context [sync_wait n tc ?c ?w2] => specialize (IH tc c w2)
      end.
      destruct (sync_wait n tc _ _); auto.
    + match goal with
      | |- context [sync_wait n tc ?c ?w2] => specialize (IH tc c w2)
      end.
      destruct (sync_wait n tc _ _); auto.
Qed.

Lemma sync_exit_client (fuel : nat) (tic : Q) (w : World) :
  match sync_exit fuel tic w with
  | Ret _ w' => client_of w' = client_of w
  | Raise _ _ => False
  | OutOfFuel => True
  end.
Proof.
  unfold sync_exit, do_one_iteration. run_monad.
  rewrite pydiv_nonzero
    by (assert (H := sync_rate_ge_1 w); unfold sync_rate in *; simpl; lra).
  simpl.
  match goal with
  | |- context [sync_wait fuel ?tc ?c ?w1] =>
      assert (H := sync_wait_client fuel tc c w1)
  end.
  destruct (sync_wait fuel _ _ _); auto.
Qed.

(** [sync] around any body that ends: the exit block runs and the outcome
    of the body is passed on. *)
Lemma sync_completes :
  forall (A : Type) (body : M A) (w wb : World),
    world_of (body w) = Some wb ->
    0 < _poll_interval (cfg wb) ->
    exists N : nat, forall fuel : nat, (N <= fuel)%nat ->
      exists w',
        sync fuel body w = with_world (body w) w'
        /\ client_of w' = client_of wb
        /\ (exists evs,
              trace w' = (trace wb ++ Pump :: evs)%list
              /\ Paced (_poll_interval (cfg wb))
                   (clock w + 1 / Qmax (TargetRate wb) 1) (clock wb) evs
                   (clock w'))
        /\ clock w + 1 / Qmax (TargetRate wb) 1 <= clock w'.
Proof.
  intros A body w wb Hb Hp.
  destruct (polls_cover (clock w + period wb - clock wb) _ Hp) as [N HN].
  exists N. intros fuel Hf.
  assert (Hfuel : clock w + period wb - clock wb
                  <= inject_Z (Z.of_nat fuel) * _poll_interval (cfg wb)).
  { eapply Qle_trans; [exact HN|].
    apply Qmult_le_compat_r; [apply inject_nat_le; exact Hf | lra]. }
  destruct (sync_exit_runs fuel (clock w) wb Hp Hfuel)
    as [w' [R [C [Ev [G _]]]]].
  exists w'. split; [|split; [exact C | split; [exact Ev | exact G]]].
  unfold sync, try_finally. run_monad.
  destruct (body w) as [a w0|e w0|]; simpl in Hb; try discriminate;
    injection Hb as ->; rewrite R; reflexivity.
Qed.

(** C5: whatever way the body of a [sync] scope ends, by returning or by
    raising, the exit actions run to completion (given a positive poll
    interval): one scheduler tick, then the deadline [tic + 1 /
    max(rate, 1)], then ticks and sleeps of [min(poll, deadline - now)]
    until the deadline is reached; the outcome of the body is passed on. *)
Theorem sync_exit_always_runs :
  forall (A : Type) (body : M A) (w wb : World),
    world_of (body w) = Some wb ->
    0 < _poll_interval (cfg wb) ->
    exists N : nat, forall fuel : nat, (N <= fuel)%nat ->
      exists w',
        sync fuel body w = with_world (body w) w'
        /\ client_of w' = client_of wb
        /\ (exists evs,
              trace w' = (trace wb ++ Pump :: evs)%list
              /\ Paced (_poll_interval (cfg wb))
                   (clock w + 1 / Qmax (TargetRate wb) 1) (clock wb) evs
                   (clock w'))
        /\ clock w + 1 / Qmax (TargetRate wb) 1 <= clock w'.
Proof. exact sync_completes. Qed.

(** A body that raises, at a fresh client: the exit actions of [sync] run
    and the exception is passed on. *)
Lemma sync_exit_runs_after_raise :
  exists N : nat, forall fuel : nat, (N <= fuel)%nat ->
    exists w',
      sync fuel (raise (A:=unit) ConnectionError) (fresh_client 5 [])
      = Raise ConnectionError w'
      /\ client_of w' = client_of (fresh_client 5 [])
      /\ (exists evs,
            trace w' = (trace (fresh_client 5 []) ++ Pump :: evs)%list
            /\ Paced (1 # 20) (0 + 1 / Qmax 1 1) 0 evs (clock w'))
      /\ 0 + 1 / Qmax 1 1 <= clock w'.
Proof.
  apply (sync_exit_always_runs unit (raise ConnectionError)
           (fresh_client 5 []) (fresh_client 5 [])).
  - reflexivity.
  - reflexivity.
Defined.

(** ** Effective rates *)

Lemma poll_rate_ge_1 (FPS_fps : FPS -> Q -> Q) (w : World) :
  1 <= poll_rate FPS_fps w.
Proof. unfold poll_rate. apply Q.le_max_l. Qed.

Lemma poll_count_value (FPS_fps : FPS -> Q -> Q) (w : World) :
  ~ _poll_interval (cfg w) == 0 ->
  poll_count FPS_fps w =
  Ret (Z.to_nat (Qceiling (1 / poll_rate FPS_fps w / _poll_interval (cfg w)))) w.
Proof.
  intro Hp. unfold poll_count. run_monad.
  rewrite pydiv_nonzero by (assert (H := poll_rate_ge_1 FPS_fps w); lra).
  simpl. rewrite pydiv_nonzero by exact Hp. reflexivity.
Qed.

(** C8, as the code has it: [sync] divides by [max(TargetRate, 1)]; the
    self-driven loop of [run] divides by [max(1, fps.fps)], the rate
    attribute of the Frame Rate Limiter, which does not depend on
    TargetRate.  Both divisors are at least 1, so neither division by a
    rate is a division by zero; with a non-zero poll interval the poll
    count is [ceil(1 / max(1, fps.fps) / poll_interval)]. *)
Theorem rates_floored_at_one :
  forall (FPS_fps : FPS -> Q -> Q) (w : World),
    sync_rate w == Qmax 1 (TargetRate w)
    /\ 1 <= sync_rate w
    /\ pydiv 1 (sync_rate w) w = Ret (1 / sync_rate w) w
    /\ poll_rate FPS_fps w = Qmax 1 (FPS_fps (fps_obj w) (clock w))
    /\ 1 <= poll_rate FPS_fps w
    /\ pydiv 1 (poll_rate FPS_fps w) w = Ret (1 / poll_rate FPS_fps w) w
    /\ (forall v : Q,
          poll_rate FPS_fps (set_w_fps_value v w) = poll_rate FPS_fps w)
    /\ (~ _poll_interval (cfg w) == 0 ->
        poll_count FPS_fps w =
        Ret (Z.to_nat
               (Qceiling (1 / poll_rate FPS_fps w / _poll_interval (cfg w))))
          w).
Proof.
  intros FPS_fps w.
  assert (Hs := sync_rate_ge_1 w). assert (Hq := poll_rate_ge_1 FPS_fps w).
  repeat split.
  - unfold sync_rate, TargetRate. apply Q.max_comm.
  - exact Hs.
  - apply pydiv_nonzero. lra.
  - exact Hq.
  - apply pydiv_nonzero. lra.
  - apply poll_count_value.
Qed.

(** The rates of a fresh client, whose poll interval is 1/20 s. *)
Lemma rates_at_fresh_client :
  poll_count measured_fps (fresh_client 5 []) =
  Ret (Z.to_nat
         (Qceiling (1 / poll_rate measured_fps (fresh_client 5 []) / (1 # 20))))
    (fresh_client 5 []).
Proof.
  apply (proj2 (proj2 (proj2 (proj2 (proj2 (proj2 (proj2
           (rates_floored_at_one measured_fps (fresh_client 5 []))))))))).
  simpl. intro H. discriminate H.
Defined.

(** C8, as stated, fails for the self-driven loop: one frame into a session
    at 10 frames per second, with the rate control moved to 20, the loop
    still divides by 10 and runs 2 polls where [max(1, TargetRate)] would
    give 1. *)
Lemma poll_rate_is_not_target_rate :
  Qmax 1 (TargetRate retuned_client) == 20
  /\ poll_rate measured_fps retuned_client == 10
  /\ ~ poll_rate measured_fps retuned_client
       == Qmax 1 (TargetRate retuned_client)
  /\ poll_count measured_fps retuned_client = Ret 2%nat retuned_client
  /\ Z.to_nat (Qceiling (1 / Qmax 1 (TargetRate retuned_client)
                         / _poll_interval (cfg retuned_client))) = 1%nat.
Proof.
  split; [reflexivity|]. split; [reflexivity|].
  split; [intro H; discriminate H|]. split; reflexivity.
Qed.

(** ** Update Cycle *)

Lemma client_of_parts (w w' : World) :
  client_of w' = client_of w ->
  session_of w' = session_of w
  /\ fps_obj w' = fps_obj w
  /\ widgets w' = widgets w.
Proof.
  unfold client_of, session_of. intro H. injection H as -> -> -> -> -> -> -> -> ->.
  repeat split.
Qed.

Lemma update_frame_body_ok (FPS_str : FPS -> Q -> string) (w : World)
    (d : Density) :
  srv_get_array (srv w) (count is_get_array (trace w)) = Some d ->
  exists w1,
    update_frame_body FPS_str w = Ret tt w1
    /\ session_of w1 = session_of w
    /\ fps_obj w1 = set_fps_frame (S (fps_frame (fps_obj w))) (fps_obj w)
    /\ TargetRate w1 = TargetRate w
    /\ clock w1 = clock w
    /\ trace w1 = (trace w ++ [SrvGetArray "density";
                               Render (get_rgba_from_density d)])%list.
Proof.
  intro H. unfold update_frame_body, get_density, server_get_array. run_monad.
  change (count_get_array (trace w)) with (count is_get_array (trace w)).
  rewrite H. simpl. eexists. split; [reflexivity|]. simpl.
  repeat split. rewrite <- app_assoc. reflexivity.
Qed.

Lemma update_frame_body_fail (FPS_str : FPS -> Q -> string) (w : World) :
  srv_get_array (srv w) (count is_get_array (trace w)) = None ->
  update_frame_body FPS_str w =
  Raise ConnectionError (set_trace (trace w ++ [SrvGetArray "density"]) w).
Proof.
  intro H. unfold update_frame_body, get_density, server_get_array. run_monad.
  change (count_get_array (trace w)) with (count is_get_array (trace w)).
  rewrite H. reflexivity.
Qed.

(** The body always ends, and writes neither session state nor budget. *)
Lemma update_frame_body_session (FPS_str : FPS -> Q -> string) (w : World) :
  exists w1,
    world_of (update_frame_body FPS_str w) = Some w1
    /\ session_of w1 = session_of w
    /\ budget_of (fps_obj w1) = budget_of (fps_obj w)
    /\ clock w1 = clock w.
Proof.
  destruct (srv_get_array (srv w) (count is_get_array (trace w))) as [d|] eqn:E.
  - destruct (update_frame_body_ok FPS_str w d E) as [w1 [R [S1 [F1 [_ [C1 _]]]]]].
    exists w1. rewrite R. simpl. repeat split; auto. rewrite F1. reflexivity.
  - rewrite (update_frame_body_fail FPS_str w E). simpl.
    eexists. split; [reflexivity|]. repeat split.
Qed.

Lemma update_frame_noop (FPS_str : FPS -> Q -> string) (fuel : nat)
    (w : World) :
  _running w = false \/ _fps w = false
  \/ FPS_bool (fps_obj w) (clock w) = false ->
  update_frame FPS_str fuel w = Ret tt w.
Proof.
  intro H. unfold update_frame. run_monad.
  destruct H as [H|[H|H]]; rewrite H; simpl.
  - rewrite orb_true_r. reflexivity.
  - reflexivity.
  - rewrite andb_false_r. reflexivity.
Qed.

Lemma update_frame_session (FPS_str : FPS -> Q -> string) (fuel : nat)
    (w w' : World) :
  world_of (update_frame FPS_str fuel w) = Some w' ->
  session_of w' = session_of w
  /\ budget_of (fps_obj w') = budget_of (fps_obj w).
Proof.
  unfold update_frame. run_monad.
  destruct (negb (_fps w && FPS_bool (fps_obj w) (clock w)) || negb (_running w)).
  - simpl. intro H. injection H as <-. split; reflexivity.
  - unfold sync, try_finally. run_monad.
    destruct (update_frame_body_session FPS_str w) as [w1 [R [S1 [B1 _]]]].
    assert (X := sync_exit_client fuel (clock w) w1).
    destruct (update_frame_body FPS_str w) as [a w0|e w0|]; simpl in R;
      try discriminate; injection R as ->;
      destruct (sync_exit fuel (clock w) w1) as [u w2|e2 w2|];
      simpl; try discriminate; try contradiction;
      intro H; injection H as <-;
      destruct (client_of_parts _ _ X) as [S2 [F2 _]];
      rewrite S2, F2; split; assumption.
Qed.

Lemma update_frame_ends (FPS_str : FPS -> Q -> string) (w : World) :
  0 < _poll_interval (cfg w) ->
  exists N : nat, forall fuel : nat, (N <= fuel)%nat ->
    exists w', world_of (update_frame FPS_str fuel w) = Some w'.
Proof.
  intro Hp. unfold update_frame. run_monad.
  destruct (negb (_fps w && FPS_bool (fps_obj w) (clock w)) || negb (_running w)).
  - exists 0%nat. intros fuel _. exists w. reflexivity.
  - destruct (update_frame_body_session FPS_str w) as [w1 [R [S1 _]]].
    assert (Hp1 : 0 < _poll_interval (cfg w1)).
    { unfold session_of in S1. injection S1 as -> _ _ _ _ _ _. exact Hp. }
    destruct (sync_completes unit (update_frame_body FPS_str) w w1 R Hp1)
      as [N HN].
    exists N. intros fuel Hf. destruct (HN fuel Hf) as [w' [E _]].
    exists w'. rewrite E.
    destruct (update_frame_body FPS_str w); simpl in *; congruence.
Qed.

(** C9: the Update Cycle is a no-op when RunState is Stopped or no Frame
    Rate Limiter is active; and whenever it ends, by returning or raising,
    RunState is what it was, as are the rest of the session state and the
    limiter's budget: what it writes is display state (image, counter,
    label), clock and trace.  With a positive poll interval it always
    ends. *)
Theorem update_frame_keeps_run_state :
  forall (FPS_str : FPS -> Q -> string) (fuel : nat) (w : World),
    (run_state w = Stopped \/ _fps w = false ->
     update_frame FPS_str fuel w = Ret tt w)
    /\ (forall w', world_of (update_frame FPS_str fuel w) = Some w' ->
          run_state w' = run_state w
          /\ session_of w' = session_of w
          /\ budget_of (fps_obj w') = budget_of (fps_obj w))
    /\ (0 < _poll_interval (cfg w) ->
        exists N : nat, forall fuel' : nat, (N <= fuel')%nat ->
          exists w', world_of (update_frame FPS_str fuel' w) = Some w').
Proof.
  intros FPS_str fuel w. split; [|split].
  - intros [H|H]; apply update_frame_noop.
    + left. unfold run_state in H. destruct (_running w); congruence.
    + right. left. exact H.
  - intros w' H. destruct (update_frame_session FPS_str fuel w w' H) as [S B].
    split; [|split; assumption].
    unfold session_of in S. injection S as _ _ R _ _ _ _.
    unfold run_state. rewrite R. reflexivity.
  - apply update_frame_ends.
Qed.

(** ** Counting events *)

Lemma count_app (p : Event -> bool) (t u : list Event) :
  count p (t ++ u) = (count p t + count p u)%nat.
Proof. unfold count. rewrite filter_app, length_app. reflexivity. Qed.

Lemma count_host (p : Event -> bool) (evs : list Event) :
  (forall e, is_host e = true -> p e = false) ->
  forallb is_host evs = true -> count p evs = 0%nat.
Proof.
  intros Hp. unfold count. induction evs as [|e evs IH]; simpl; [reflexivity|].
  intro H. apply andb_true_iff in H as [He Hr].
  rewrite (Hp e He). auto.
Qed.

Lemma host_not_call (e : Event) : is_host e = true -> is_call e = false.
Proof. destruct e; simpl; congruence. Qed.
Lemma host_not_get_array (e : Event) : is_host e = true -> is_get_array e = false.
Proof. destruct e; simpl; congruence. Qed.
Lemma host_not_render (e : Event) : is_host e = true -> is_render e = false.
Proof. destruct e; simpl; congruence. Qed.
Lemma host_not_quit (e : Event) : is_host e = true -> is_quit e = false.
Proof. destruct e; simpl; congruence. Qed.

Lemma frames_done_host (evs : list Event) :
  forallb is_host evs = true -> frames_done 0 evs.
Proof.
  intro H. unfold frames_done.
  rewrite (count_host is_call), (count_host is_get_array),
    (count_host is_render), (count_host is_quit);
    auto using host_not_call, host_not_get_array, host_not_render, host_not_quit.
Qed.

Lemma frames_done_app (j k : nat) (t u : list Event) :
  frames_done j t -> frames_done k u -> frames_done (j + k) (t ++ u).
Proof.
  unfold frames_done. intros [A1 [A2 [A3 A4]]] [B1 [B2 [B3 B4]]].
  rewrite !count_app. lia.
Qed.

Lemma forallb_host_repeat (n : nat) : forallb is_host (repeat Pump n) = true.
Proof. induction n; simpl; auto. Qed.

(** ** The polls of the self-driven loop *)

Lemma polls_run (n : nat) : forall w : World,
  polls n w = Ret tt (set_trace (trace w ++ repeat Pump n) w).
Proof.
  induction n as [|n IH]; intro w; simpl.
  - unfold ret. rewrite app_nil_r. destruct w; reflexivity.
  - unfold do_one_iteration. run_monad. rewrite IH. simpl.
    rewrite <- app_assoc. reflexivity.
Qed.

(** ** The limiter *)

Lemma FPS_next_yields (w : World) :
  fps_active (fps_obj w) = true ->
  FPS_timed_out (fps_obj w) (clock w) = false ->
  (fps_elapsed_frames (fps_obj w) < fps_frames (fps_obj w))%nat ->
  FPS_next w =
  Ret (Some (fps_elapsed_frames (fps_obj w)))
    (set_fps_obj
       (set_fps_elapsed_frames (S (fps_elapsed_frames (fps_obj w))) (fps_obj w))
       w).
Proof.
  intros Ha Ht Hl. unfold FPS_next. run_monad. rewrite Ha, Ht. simpl.
  apply Nat.leb_gt in Hl. rewrite Hl. reflexivity.
Qed.


Lemma in_time_not_timed_out (i n : nat) (w : World) :
  (i <= n)%nat -> in_time n w ->
  clock w - fps_start_time (fps_obj w) <= inject_Z (Z.of_nat i) * period w ->
  FPS_timed_out (fps_obj w) (clock w) = false.
Proof.
  intros Hin Ht Hc. unfold FPS_timed_out, in_time in *.
  destruct (fps_timeout (fps_obj w)) as [T|]; [|reflexivity].
  destruct (Qle_bool T (clock w - fps_start_time (fps_obj w))) eqn:E;
    [|reflexivity].
  apply Qle_bool_iff in E.
  assert (Hp := proj1 (period_bounds w)).
  assert (Hm : inject_Z (Z.of_nat i) * period w
               <= inject_Z (Z.of_nat n) * period w).
  { apply Qmult_le_compat_r; [apply inject_nat_le; exact Hin | lra]. }
  lra.
Qed.

(** ** One frame *)

Lemma period_of_rate (w w1 : World) :
  TargetRate w1 = TargetRate w -> period w1 = period w.
Proof.
  unfold period, sync_rate, TargetRate. intros ->. reflexivity.
Qed.

Lemma wait_covers_period (wait : nat) (w : World) :
  0 < _poll_interval (cfg w) ->
  1 <= inject_Z (Z.of_nat wait) * _poll_interval (cfg w) ->
  period w <= inject_Z (Z.of_nat wait) * _poll_interval (cfg w).
Proof. intros _ H. assert (P := period_bounds w). lra. Qed.

(** A frame that is fetched: image, counter and label are written and the
    pacing brings the clock to one period after the start of the frame. *)
Lemma update_frame_renders (FPS_str : FPS -> Q -> string) (wait : nat)
    (w : World) (d : Density) :
  _fps w = true -> _running w = true ->
  FPS_bool (fps_obj w) (clock w) = true ->
  srv_get_array (srv w) (count is_get_array (trace w)) = Some d ->
  0 < _poll_interval (cfg w) ->
  1 <= inject_Z (Z.of_nat wait) * _poll_interval (cfg w) ->
  exists w',
    update_frame FPS_str wait w = Ret tt w'
    /\ session_of w' = session_of w
    /\ fps_obj w' = set_fps_frame (S (fps_frame (fps_obj w))) (fps_obj w)
    /\ TargetRate w' = TargetRate w
    /\ clock w' == clock w + period w
    /\ exists evs,
         trace w' = (trace w ++ SrvGetArray "density"
                             :: Render (get_rgba_from_density d)
                             :: Pump :: evs)%list
         /\ forallb is_host evs = true.
Proof.
  intros Hb Hr Hf Hd Hp Hw. unfold update_frame. run_monad.
  rewrite Hb, Hr, Hf. simpl. unfold sync, try_finally. run_monad.
  destruct (update_frame_body_ok FPS_str w d Hd)
    as [w1 [R [S1 [F1 [T1 [C1 Tr1]]]]]].
  rewrite R.
  assert (Hc1 : cfg w1 = cfg w)
    by (unfold session_of in S1; injection S1 as -> _ _ _ _ _ _; reflexivity).
  assert (Hper : period w1 = period w) by (apply period_of_rate; exact T1).
  destruct (sync_exit_runs wait (clock w) w1) as [w' [E [C [[evs [Tr P]] [_ Lt]]]]].
  - rewrite Hc1. exact Hp.
  - rewrite Hc1, Hper, C1.
    assert (X := wait_covers_period wait w Hp Hw). lra.
  - rewrite E. exists w'. split; [reflexivity|].
    destruct (client_of_parts _ _ C) as [S2 [F2 W2]].
    split; [congruence|]. split; [congruence|].
    split; [unfold TargetRate in *; congruence|].
    split.
    + rewrite Hper, C1 in Lt. apply Lt.
      assert (X := proj1 (period_bounds w)). lra.
    + exists evs. split; [|exact (Paced_host _ _ _ _ _ P)].
      rewrite Tr, Tr1. rewrite <- app_assoc. reflexivity.
Qed.

(** A frame whose fetch fails: the pacing still runs, then ConnectionError
    leaves the Update Cycle; nothing but clock and trace has changed. *)
Lemma update_frame_fails (FPS_str : FPS -> Q -> string) (wait : nat)
    (w : World) :
  _fps w = true -> _running w = true ->
  FPS_bool (fps_obj w) (clock w) = true ->
  srv_get_array (srv w) (count is_get_array (trace w)) = None ->
  0 < _poll_interval (cfg w) ->
  1 <= inject_Z (Z.of_nat wait) * _poll_interval (cfg w) ->
  exists w',
    update_frame FPS_str wait w = Raise ConnectionError w'
    /\ client_of w' = client_of w
    /\ exists evs,
         trace w' = (trace w ++ SrvGetArray "density" :: Pump :: evs)%list
         /\ forallb is_host evs = true.
Proof.
  intros Hb Hr Hf Hd Hp Hw. unfold update_frame. run_monad.
  rewrite Hb, Hr, Hf. simpl. unfold sync, try_finally. run_monad.
  rewrite (update_frame_body_fail FPS_str w Hd).
  set (w1 := set_trace (trace w ++ [SrvGetArray "density"]) w).
  destruct (sync_exit_runs wait (clock w) w1) as [w' [E [C [[evs [Tr P]] _]]]].
  - exact Hp.
  - change (period w1) with (period w). change (clock w1) with (clock w).
    change (cfg w1) with (cfg w).
    assert (X := wait_covers_period wait w Hp Hw). lra.
  - rewrite E. exists w'. split; [reflexivity|]. split; [exact C|].
    exists evs. split; [|exact (Paced_host _ _ _ _ _ P)].
    rewrite Tr. unfold w1. simpl. rewrite <- app_assoc. reflexivity.
Qed.

Lemma count_get_array_call (t : list Event) :
  count is_get_array (t ++ [CallUpdateFrame]) = count is_get_array t.
Proof. rewrite count_app. unfold count. simpl. lia. Qed.

Lemma call_update_frame_renders (FPS_str : FPS -> Q -> string) (wait : nat)
    (w : World) (d : Density) :
  _fps w = true -> _running w = true ->
  FPS_bool (fps_obj w) (clock w) = true ->
  srv_get_array (srv w) (count is_get_array (trace w)) = Some d ->
  0 < _poll_interval (cfg w) ->
  1 <= inject_Z (Z.of_nat wait) * _poll_interval (cfg w) ->
  exists w',
    call_update_frame FPS_str wait w = Ret tt w'
    /\ session_of w' = session_of w
    /\ fps_obj w' = set_fps_frame (S (fps_frame (fps_obj w))) (fps_obj w)
    /\ TargetRate w' = TargetRate w
    /\ clock w' == clock w + period w
    /\ exists evs,
         trace w' = (trace w ++ evs)%list /\ frames_done 1 evs.
Proof.
  intros Hb Hr Hf Hd Hp Hw. unfold call_update_frame. run_monad.
  set (w0 := set_trace (trace w ++ [CallUpdateFrame]) w).
  destruct (update_frame_renders FPS_str wait w0 d)
    as [w' [E [S1 [F1 [T1 [C1 [evs [Tr Hh]]]]]]]]; auto.
  - unfold w0. simpl. rewrite count_get_array_call. exact Hd.
  - exists w'. split; [exact E|]. repeat (split; [assumption|]).
    exists (CallUpdateFrame :: SrvGetArray "density"
              :: Render (get_rgba_from_density d) :: Pump :: evs).
    split.
    + rewrite Tr. unfold w0. simpl. rewrite <- app_assoc. reflexivity.
    + change (frames_done (1 + 0)
                ([CallUpdateFrame; SrvGetArray "density";
                  Render (get_rgba_from_density d); Pump] ++ evs)).
      apply frames_done_app; [repeat split | apply frames_done_host; exact Hh].
Qed.

Lemma call_update_frame_fails (FPS_str : FPS -> Q -> string) (wait : nat)
    (w : World) :
  _fps w = true -> _running w = true ->
  FPS_bool (fps_obj w) (clock w) = true ->
  srv_get_array (srv w) (count is_get_array (trace w)) = None ->
  0 < _poll_interval (cfg w) ->
  1 <= inject_Z (Z.of_nat wait) * _poll_interval (cfg w) ->
  exists w',
    call_update_frame FPS_str wait w = Raise ConnectionError w'
    /\ client_of w' = client_of w
    /\ exists evs,
         trace w' = (trace w ++ CallUpdateFrame :: SrvGetArray "density"
                             :: Pump :: evs)%list
         /\ forallb is_host evs = true.
Proof.
  intros Hb Hr Hf Hd Hp Hw. unfold call_update_frame. run_monad.
  set (w0 := set_trace (trace w ++ [CallUpdateFrame]) w).
  destruct (update_frame_fails FPS_str wait w0)
    as [w' [E [C [evs [Tr Hh]]]]]; auto.
  - unfold w0. simpl. rewrite count_get_array_call. exact Hd.
  - exists w'. split; [exact E|]. split; [exact C|].
    exists evs. split; [|exact Hh].
    rewrite Tr. unfold w0. simpl. rewrite <- app_assoc. reflexivity.
Qed.

Lemma FPS_bool_true (w : World) :
  fps_active (fps_obj w) = true ->
  (fps_elapsed_frames (fps_obj w) < fps_frames (fps_obj w))%nat ->
  FPS_timed_out (fps_obj w) (clock w) = false ->
  FPS_bool (fps_obj w) (clock w) = true.
Proof.
  intros Ha Hl Ht. unfold FPS_bool. rewrite Ha, Ht.
  apply Nat.ltb_lt in Hl. rewrite Hl. reflexivity.
Qed.

(** One turn of the frame loop in which the frame is fetched. *)
Lemma for_frames_step (FPS_fps : FPS -> Q -> Q) (FPS_str : FPS -> Q -> string)
    (wait fuel i : nat) (w : World) (d : Density) :
  AtLoopHead i w ->
  (S i < fps_frames (fps_obj w))%nat ->
  in_time i w ->
  srv_get_array (srv w) (count is_get_array (trace w)) = Some d ->
  1 <= inject_Z (Z.of_nat wait) * _poll_interval (cfg w) ->
  exists w',
    for_frames FPS_fps FPS_str wait (S fuel) w
    = for_frames FPS_fps FPS_str wait fuel w'
    /\ AtLoopHead (S i) w'
    /\ static_of w' = static_of w
    /\ exists evs, trace w' = (trace w ++ evs)%list /\ frames_done 1 evs.
Proof.
  intros [Hr Hb Ha He Hp Hc] Hlt Ht Hd Hw.
  assert (Hto : FPS_timed_out (fps_obj w) (clock w) = false)
    by (apply (in_time_not_timed_out i i); auto).
  cbn [for_frames]. unfold bind at 1.
  rewrite FPS_next_yields by (auto; lia).
  set (w1 := set_fps_obj _ w).
  unfold bind at 1. unfold gets at 1. change (_running w1) with (_running w).
  rewrite Hr. cbn [negb]. unfold bind at 1.
  destruct (call_update_frame_renders FPS_str wait w1 d)
    as [w2 [E [S2 [F2 [T2 [C2 [evs [Tr2 Hd2]]]]]]]]; auto.
  { apply FPS_bool_true; auto. unfold w1. simpl. lia. }
  rewrite E.
  assert (Hcfg : cfg w2 = cfg w)
    by (unfold session_of in S2; injection S2 as -> _ _ _ _ _ _; reflexivity).
  unfold bind at 1. rewrite poll_count_value by (rewrite Hcfg; lra).
  set (n := Z.to_nat _).
  unfold bind at 1. rewrite polls_run.
  set (w3 := set_trace _ w2).
  exists w3. split; [reflexivity|].
  assert (HS := S2). unfold session_of in HS.
  injection HS as Ecfg Esrv Erun Emd Efps ENx ENy.
  split; [|split].
  - constructor.
    + unfold w3; simpl. rewrite Erun. exact Hr.
    + unfold w3; simpl. rewrite Efps. exact Hb.
    + unfold w3; simpl. rewrite F2. simpl. exact Ha.
    + unfold w3; simpl. rewrite F2. simpl. exact (f_equal S He).
    + unfold w3; simpl. rewrite Ecfg. exact Hp.
    + change (period w3) with (period w2). change (clock w3) with (clock w2).
      change (fps_obj w3) with (fps_obj w2).
      rewrite (period_of_rate w1 w2 T2). change (period w1) with (period w).
      rewrite F2.
      change (fps_start_time (set_fps_frame _ (fps_obj w1)))
        with (fps_start_time (fps_obj w)).
      rewrite inject_nat_succ.
      change (clock w1) with (clock w) in C2.
      change (period w1) with (period w) in C2.
      rewrite C2. lra.
  - unfold static_of, w3. simpl.
    change (session_of (set_trace (trace w2 ++ repeat Pump n) w2))
      with (session_of w2).
    rewrite S2, F2. simpl.
    change (TargetRate (set_trace (trace w2 ++ repeat Pump n) w2))
      with (TargetRate w2).
    rewrite T2. reflexivity.
  - exists (evs ++ repeat Pump n)%list. split.
    + unfold w3. simpl. rewrite Tr2. unfold w1. simpl.
      rewrite <- app_assoc. reflexivity.
    + change 1%nat with (1 + 0)%nat. apply frames_done_app; [exact Hd2|].
      apply frames_done_host. apply forallb_host_repeat.
Qed.

Lemma static_parts (w w' : World) :
  static_of w' = static_of w ->
  session_of w' = session_of w
  /\ cfg w' = cfg w /\ srv w' = srv w
  /\ fps_frames (fps_obj w') = fps_frames (fps_obj w)
  /\ period w' = period w
  /\ (forall n, in_time n w' <-> in_time n w).
Proof.
  intro H. assert (H' := H). unfold static_of, session_of in H'.
  injection H' as Hc Hv Hr Hm Hb Hx Hy Hf Ht _ _ Hrate.
  assert (Hp : period w' = period w) by (apply period_of_rate; exact Hrate).
  assert (Hs : session_of w' = session_of w)
    by (unfold session_of; congruence).
  split; [exact Hs|]. split; [exact Hc|]. split; [exact Hv|].
  split; [exact Hf|]. split; [exact Hp|].
  intro n. unfold in_time. rewrite Ht, Hp. reflexivity.
Qed.

Lemma in_time_le (n m : nat) (w : World) :
  (n <= m)%nat -> in_time m w -> in_time n w.
Proof.
  unfold in_time. intros Hnm. destruct (fps_timeout (fps_obj w)) as [T|]; auto.
  intro H. assert (Hp := proj1 (period_bounds w)).
  assert (inject_Z (Z.of_nat n) * period w <= inject_Z (Z.of_nat m) * period w)
    by (apply Qmult_le_compat_r; [apply inject_nat_le; exact Hnm | lra]).
  lra.
Qed.

(** [j] turns of the frame loop in which the frames are fetched. *)
Lemma for_frames_prefix (FPS_fps : FPS -> Q -> Q)
    (FPS_str : FPS -> Q -> string) (wait fuel : nat) :
  forall (j i : nat) (w : World),
    AtLoopHead i w ->
    (i + j < fps_frames (fps_obj w))%nat ->
    in_time (i + j) w ->
    (forall n, (n < j)%nat ->
       exists d, srv_get_array (srv w) (count is_get_array (trace w) + n)
                 = Some d) ->
    1 <= inject_Z (Z.of_nat wait) * _poll_interval (cfg w) ->
    exists w',
      for_frames FPS_fps FPS_str wait (j + fuel) w
      = for_frames FPS_fps FPS_str wait fuel w'
      /\ AtLoopHead (i + j) w'
      /\ static_of w' = static_of w
      /\ exists evs, trace w' = (trace w ++ evs)%list /\ frames_done j evs.
Proof.
  induction j as [|j IH]; intros i w Hh Hlt Ht Hsrv Hw.
  - exists w. rewrite Nat.add_0_r. split; [reflexivity|].
    split; [exact Hh|]. split; [reflexivity|].
    exists []. rewrite app_nil_r. split; [reflexivity | repeat split].
  - destruct (Hsrv 0%nat) as [d Hd]; [lia|]. rewrite Nat.add_0_r in Hd.
    destruct (for_frames_step FPS_fps FPS_str wait (j + fuel) i w d)
      as [w1 [E1 [H1 [S1 [evs1 [Tr1 D1]]]]]]; auto; try lia.
    { apply (in_time_le i (i + S j)); [lia | exact Ht]. }
    destruct (static_parts w w1 S1) as [_ [Hc [Hv [Hf [_ Hin]]]]].
    destruct (IH (S i) w1) as [w' [E [H' [S' [evs [Tr D]]]]]]; auto.
    + rewrite Hf. lia.
    + apply Hin. replace (S i + j)%nat with (i + S j)%nat by lia. exact Ht.
    + intros n Hn. rewrite Hv, Tr1, count_app.
      destruct D1 as [_ [G _]]. rewrite G.
      destruct (Hsrv (S n)) as [d' Hd']; [lia|]. exists d'.
      rewrite <- Hd'. f_equal. lia.
    + rewrite Hc. exact Hw.
    + exists w'. split; [|split; [|split]].
      * change (S j + fuel)%nat with (S (j + fuel)). rewrite E1. exact E.
      * replace (i + S j)%nat with (S i + j)%nat by lia. exact H'.
      * congruence.
      * exists (evs1 ++ evs)%list. split.
        -- rewrite Tr, Tr1, app_assoc. reflexivity.
        -- change (S j) with (1 + j)%nat. apply frames_done_app; assumption.
Qed.

(** The turn of the frame loop in which the fetch fails. *)
Lemma for_frames_fails (FPS_fps : FPS -> Q -> Q)
    (FPS_str : FPS -> Q -> string) (wait fuel i : nat) (w : World) :
  AtLoopHead i w ->
  (S i < fps_frames (fps_obj w))%nat ->
  in_time i w ->
  srv_get_array (srv w) (count is_get_array (trace w)) = None ->
  1 <= inject_Z (Z.of_nat wait) * _poll_interval (cfg w) ->
  exists w',
    for_frames FPS_fps FPS_str wait (S fuel) w = Raise ConnectionError w'
    /\ static_of w' = static_of w
    /\ exists evs,
         trace w' = (trace w ++ CallUpdateFrame :: SrvGetArray "density"
                             :: Pump :: evs)%list
         /\ forallb is_host evs = true.
Proof.
  intros [Hr Hb Ha He Hp Hc] Hlt Ht Hd Hw.
  assert (Hto : FPS_timed_out (fps_obj w) (clock w) = false)
    by (apply (in_time_not_timed_out i i); auto).
  cbn [for_frames]. unfold bind at 1.
  rewrite FPS_next_yields by (auto; lia).
  set (w1 := set_fps_obj _ w).
  unfold bind at 1. unfold gets at 1. change (_running w1) with (_running w).
  rewrite Hr. cbn [negb]. unfold bind at 1.
  destruct (call_update_frame_fails FPS_str wait w1)
    as [w2 [E [C [evs [Tr Hh]]]]]; auto.
  { apply FPS_bool_true; auto. unfold w1. simpl. lia. }
  rewrite E. exists w2. split; [reflexivity|].
  destruct (client_of_parts _ _ C) as [S2 [F2 W2]].
  split.
  - unfold static_of, TargetRate. rewrite S2, F2, W2. reflexivity.
  - exists evs. split; [exact Tr | exact Hh].
Qed.


(** ** The session *)

(** The handshake and the set-up of the widgets in [run]. *)
Lemma run_starts (FPS_fps : FPS -> Q -> Q) (FPS_str : FPS -> Q -> string)
    (w : World) :
  srv_get_ok (srv w) ["Nx"; "Ny"] = true ->
  srv_get_ok (srv w) ["layout"] = true ->
  fst (srv_grid (srv w)) <> 0%Z ->
  exists ws,
    (forall fuel,
       run FPS_fps FPS_str fuel w
       = (run_frames FPS_fps FPS_str fuel ;; run_finish) ws)
    /\ cfg ws = cfg w /\ srv ws = srv w
    /\ _running ws = _running w
    /\ clock ws = clock w
    /\ TargetRate ws = opts_fps (cfg w)
    /\ trace ws = (trace w ++ [SrvGet ["Nx"; "Ny"]; SrvGet ["layout"]; Display])%list.
Proof.
  intros Hg Hl Hn. eexists. split.
  - intro fuel. unfold run, get_widget, server_get. run_monad.
    rewrite Hg. simpl. rewrite Hl. simpl.
    rewrite pydiv_nonzero.
    + reflexivity.
    + unfold Qeq. simpl. lia.
  - simpl. repeat split. rewrite <- !app_assoc. reflexivity.
Qed.

(** Entering the limiter's scope in the self-driven mode. *)
Lemma run_frames_self_driven (FPS_fps : FPS -> Q -> Q)
    (FPS_str : FPS -> Q -> string) (ws : World) :
  browser_control (cfg ws) = false ->
  _running ws = true ->
  0 < _poll_interval (cfg ws) ->
  exists w0,
    (forall fuel,
       run_frames FPS_fps FPS_str fuel ws
       = try_finally (for_frames FPS_fps FPS_str fuel fuel) FPS_exit w0)
    /\ AtLoopHead 0 w0
    /\ fps_frames (fps_obj w0) = frames (cfg ws)
    /\ fps_timeout (fps_obj w0) = timeout (cfg ws)
    /\ cfg w0 = cfg ws /\ srv w0 = srv ws
    /\ TargetRate w0 = TargetRate ws
    /\ trace w0 = trace ws.
Proof.
  intros Hb Hr Hp. eexists. split.
  - intro fuel. unfold run_frames, with_FPS, FPS_enter. run_monad.
    unfold try_finally. simpl. rewrite Hb. reflexivity.
  - simpl. split; [|repeat split].
    constructor; try (simpl; auto; fail).
    cbn [clock fps_start_time fps_obj set_fps set_fps_obj].
    change (inject_Z (Z.of_nat 0)) with 0. lra.
Qed.




Lemma session_running (w w' : World) :
  session_of w' = session_of w -> _running w' = _running w.
Proof. unfold session_of. intro H. injection H as _ _ R _ _ _ _. exact R. Qed.

Lemma fuel_bound (fuel N : nat) (p : Q) :
  0 < p -> 1 <= inject_Z (Z.of_nat N) * p -> (N <= fuel)%nat ->
  1 <= inject_Z (Z.of_nat fuel) * p.
Proof.
  intros Hp HN Hf. eapply Qle_trans; [exact HN|].
  apply Qmult_le_compat_r; [apply inject_nat_le; exact Hf | lra].
Qed.


Lemma count_startup (p : Event -> bool) (t : list Event) :
  p (SrvGet ["Nx"; "Ny"]) = false -> p (SrvGet ["layout"]) = false ->
  p Display = false ->
  count p (t ++ [SrvGet ["Nx"; "Ny"]; SrvGet ["layout"]; Display]) = count p t.
Proof.
  intros A B C. rewrite count_app. unfold count. simpl.
  rewrite A, B, C. simpl. lia.
Qed.

(** A self-driven session whose [k]-th fetch (from 0) fails. *)
Lemma run_connection_error (FPS_fps : FPS -> Q -> Q)
    (FPS_str : FPS -> Q -> string) (k : nat) (w : World) :
  browser_control (cfg w) = false ->
  _running w = true ->
  srv_get_ok (srv w) ["Nx"; "Ny"] = true ->
  srv_get_ok (srv w) ["layout"] = true ->
  fst (srv_grid (srv w)) <> 0%Z ->
  0 < _poll_interval (cfg w) ->
  (S k < frames (cfg w))%nat ->
  timeout_allows k w ->
  (forall n, (n < k)%nat ->
     exists d, srv_get_array (srv w) (count is_get_array (trace w) + n)
               = Some d) ->
  srv_get_array (srv w) (count is_get_array (trace w) + k) = None ->
  exists N : nat, forall fuel : nat, (N <= fuel)%nat ->
    exists w' t evs,
      run FPS_fps FPS_str fuel w = Raise ConnectionError w'
      /\ trace w' = (t ++ SrvGetArray "density" :: Pump :: evs)%list
      /\ forallb is_host evs = true
      /\ count is_render t = (count is_render (trace w) + k)%nat
      /\ count is_get_array t = (count is_get_array (trace w) + k)%nat
      /\ count is_call t = (count is_call (trace w) + S k)%nat
      /\ count is_quit (trace w') = count is_quit (trace w)
      /\ run_state w' = Running
      /\ _fps w' = true
      /\ fps_active (fps_obj w') = false.
Proof.
  intros Hb Hr Hg Hl Hn Hp Hk Hta Hok Hfail.
  destruct (run_starts FPS_fps FPS_str w Hg Hl Hn)
    as [ws [Erun [Hc [Hv [Hrs [_ [Hrate Trs]]]]]]].
  destruct (run_frames_self_driven FPS_fps FPS_str ws)
    as [w0 [Efr [Hh [Hf0 [Ht0 [Hc0 [Hv0 [Hr0 Tr0]]]]]]]];
    [rewrite Hc; exact Hb | rewrite Hrs; exact Hr | rewrite Hc; exact Hp |].
  destruct (polls_cover 1 _ Hp) as [N1 HN1].
  exists (Nat.max N1 (S k)). intros fuel Hfuel.
  assert (Hw : 1 <= inject_Z (Z.of_nat fuel) * _poll_interval (cfg w0)).
  { rewrite Hc0, Hc. apply (fuel_bound fuel N1); auto. lia. }
  assert (Hin : in_time k w0).
  { unfold in_time, timeout_allows in *. rewrite Ht0, Hc.
    destruct (timeout (cfg w)) as [T|]; [|exact I].
    unfold period, sync_rate. unfold TargetRate in Hr0, Hrate.
    rewrite Hr0, Hrate. exact Hta. }
  assert (Hcnt : count is_get_array (trace w0) = count is_get_array (trace w)).
  { rewrite Tr0, Trs. apply count_startup; reflexivity. }
  destruct (for_frames_prefix FPS_fps FPS_str fuel (S (fuel - k - 1)) k 0 w0)
    as [w1 [E1 [H1 [S1 [evs1 [Tr1 D1]]]]]]; auto.
  { rewrite Hf0, Hc. lia. }
  { intros n Hlt. rewrite Hv0, Hv, Hcnt. apply Hok. exact Hlt. }
  destruct (static_parts w0 w1 S1) as [Hs1 [Hc1 [Hv1 [Hfr1 [_ Hin1]]]]].
  destruct D1 as [Dc [Dg [Dr Dq]]].
  destruct (for_frames_fails FPS_fps FPS_str fuel (fuel - k - 1) k w1)
    as [w2 [E2 [S2 [evs2 [Tr2 Hh2]]]]]; auto.
  { rewrite Hfr1, Hf0, Hc. lia. }
  { apply Hin1. exact Hin. }
  { rewrite Hv1, Hv0, Hv, Tr1, count_app, Hcnt, Dg. exact Hfail. }
  { rewrite Hc1. exact Hw. }
  destruct (static_parts w1 w2 S2) as [Hs2 _].
  assert (HS : session_of w2 = session_of w0) by congruence.
  assert (R2 : _running w2 = true)
    by (rewrite (session_running _ _ HS); apply Hh).
  assert (B2 : _fps w2 = true).
  { unfold session_of in HS. injection HS as _ _ _ _ B _ _.
    rewrite B. apply Hh. }
  eexists. exists (trace w1 ++ [CallUpdateFrame])%list, evs2.
  split; [|split; [|split; [|split; [|split; [|split; [|split; [|split; [|split]]]]]]]].
  - rewrite Erun. unfold bind at 1. rewrite Efr.
    unfold try_finally.
    replace (for_frames FPS_fps FPS_str fuel fuel w0)
      with (for_frames FPS_fps FPS_str fuel (k + S (fuel - k - 1)) w0)
      by (f_equal; lia).
    rewrite E1, E2. unfold FPS_exit, modify. reflexivity.
  - simpl. rewrite Tr2, <- app_assoc. reflexivity.
  - exact Hh2.
  - rewrite count_app, Tr1, Tr0, Trs, !count_app, Dr. unfold count. simpl. lia.
  - rewrite count_app, Tr1, Tr0, Trs, !count_app, Dg. unfold count. simpl. lia.
  - rewrite count_app, Tr1, Tr0, Trs, !count_app, Dc. unfold count. simpl. lia.
  - simpl. rewrite Tr2, Tr1, Tr0, Trs, !count_app, Dq.
    change (CallUpdateFrame :: SrvGetArray "density" :: Pump :: evs2)
      with ([CallUpdateFrame; SrvGetArray "density"; Pump] ++ evs2)%list.
    rewrite count_app, (count_host is_quit evs2) by auto using host_not_quit.
    unfold count. simpl. lia.
  - unfold run_state. simpl. rewrite R2. reflexivity.
  - simpl. exact B2.
  - reflexivity.
Qed.

(** A browser-driven session whose first fetch, in the call of the Update
    Cycle that [run] makes itself, fails. *)
Lemma run_browser_connection_error (FPS_fps : FPS -> Q -> Q)
    (FPS_str : FPS -> Q -> string) (w : World) :
  browser_control (cfg w) = true ->
  _running w = true ->
  srv_get_ok (srv w) ["Nx"; "Ny"] = true ->
  srv_get_ok (srv w) ["layout"] = true ->
  fst (srv_grid (srv w)) <> 0%Z ->
  0 < _poll_interval (cfg w) ->
  (0 < frames (cfg w))%nat ->
  timeout_allows 0 w ->
  srv_get_array (srv w) (count is_get_array (trace w)) = None ->
  exists N : nat, forall fuel : nat, (N <= fuel)%nat ->
    exists w' t evs,
      run FPS_fps FPS_str fuel w = Raise ConnectionError w'
      /\ trace w' = (t ++ SrvGetArray "density" :: Pump :: evs)%list
      /\ forallb is_host evs = true
      /\ count is_render t = count is_render (trace w)
      /\ count is_call t = S (count is_call (trace w))
      /\ count is_quit (trace w') = count is_quit (trace w)
      /\ run_state w' = Running
      /\ _fps w' = true
      /\ w_density_on_update (widgets w') = true
      /\ fps_active (fps_obj w') = false.
Proof.
  intros Hb Hr Hg Hl Hn Hp Hk Hta Hfail.
  destruct (run_starts FPS_fps FPS_str w Hg Hl Hn)
    as [ws [Erun [Hc [Hv [Hrs [_ [Hrate Trs]]]]]]].
  destruct (polls_cover 1 _ Hp) as [N1 HN1].
  exists N1. intros fuel Hfuel.
  set (w0 := set_w_density_on_update true
               (set_fps true
                  (set_fps_obj
                     {| fps_frames := frames (cfg ws);
                        fps_timeout := timeout (cfg ws);
                        fps_elapsed_frames := 0; fps_start_time := clock ws;
                        fps_frame := 0; fps_active := true |} ws))).
  assert (Hto : FPS_timed_out (fps_obj w0) (clock w0) = false).
  { unfold FPS_timed_out, timeout_allows in *. unfold w0. simpl. rewrite Hc.
    destruct (timeout (cfg w)) as [T|]; [|reflexivity].
    destruct (Qle_bool T (clock ws - clock ws)) eqn:E; [|reflexivity].
    apply Qle_bool_iff in E.
    change (inject_Z (Z.of_nat 0)) with 0 in Hta. lra. }
  destruct (call_update_frame_fails FPS_str fuel w0)
    as [w2 [E [C [evs [Tr Hh]]]]].
  - reflexivity.
  - unfold w0. simpl. rewrite Hrs. exact Hr.
  - apply FPS_bool_true;
      [reflexivity | unfold w0; simpl; rewrite Hc; exact Hk | exact Hto].
  - unfold w0. simpl. rewrite Hv, Trs, count_startup by reflexivity. exact Hfail.
  - unfold w0. simpl. rewrite Hc. exact Hp.
  - unfold w0. simpl. rewrite Hc. apply (fuel_bound fuel N1); auto.
  - destruct (client_of_parts _ _ C) as [S2 [F2 W2]].
    assert (HS := S2). unfold session_of in HS.
    injection HS as _ _ R _ B _ _.
    eexists. exists (trace w0 ++ [CallUpdateFrame])%list, evs.
    split; [|split; [|split; [|split; [|split; [|split; [|split; [|split; [|split]]]]]]]].
    + rewrite Erun. unfold bind at 1.
      assert (Efr : run_frames FPS_fps FPS_str fuel ws
                    = try_finally
                        (call_update_frame FPS_str fuel ;;
                         browser_loop fuel ;;
                         modify (set_w_density_on_update false))
                        FPS_exit w0).
      { unfold run_frames, with_FPS, FPS_enter, try_finally. run_monad.
        assert (Hb' : browser_control (cfg ws) = true)
          by (rewrite Hc; exact Hb).
        rewrite Hb'. reflexivity. }
      rewrite Efr. unfold try_finally. unfold bind at 1. rewrite E.
      unfold FPS_exit, modify. reflexivity.
    + simpl. rewrite Tr, <- app_assoc. reflexivity.
    + exact Hh.
    + rewrite count_app. unfold w0. simpl.
      rewrite Trs, count_startup by reflexivity. unfold count. simpl. lia.
    + rewrite count_app. unfold w0. simpl.
      rewrite Trs, count_startup by reflexivity. unfold count. simpl. lia.
    + simpl. rewrite Tr. unfold w0. simpl. rewrite Trs.
      change (CallUpdateFrame :: SrvGetArray "density" :: Pump :: evs)
        with ([CallUpdateFrame; SrvGetArray "density"; Pump] ++ evs)%list.
      rewrite !count_app, (count_host is_quit evs) by auto using host_not_quit.
      unfold count. simpl. lia.
    + unfold run_state. simpl. rewrite R. unfold w0. simpl.
      rewrite Hrs, Hr. reflexivity.
    + simpl. rewrite B. reflexivity.
    + simpl. rewrite W2. reflexivity.
    + reflexivity.
Qed.

(** C1, as the code has it: when a fetch raises a connection error in an
    Update Cycle that [run] calls (the [k]-th frame, from 0, of a
    self-driven session; the first frame of a browser-driven one), the
    pacing of the Frame Synchronizer still runs, then the error leaves the
    Update Cycle, the frame loop (no further tick) and the limiter's scope
    (closed on the way out), and leaves [run] itself: what follows the scope
    in [run] is not reached, so no [do("quit")] is sent and RunState stays
    Running.  The frames before the failing one were rendered. *)
Theorem connection_error_leaves_run :
  (forall (FPS_fps : FPS -> Q -> Q) (FPS_str : FPS -> Q -> string)
     (k : nat) (w : World),
     browser_control (cfg w) = false ->
     _running w = true ->
     srv_get_ok (srv w) ["Nx"; "Ny"] = true ->
     srv_get_ok (srv w) ["layout"] = true ->
     fst (srv_grid (srv w)) <> 0%Z ->
     0 < _poll_interval (cfg w) ->
     (S k < frames (cfg w))%nat ->
     timeout_allows k w ->
     (forall n, (n < k)%nat ->
        exists d, srv_get_array (srv w) (count is_get_array (trace w) + n)
                  = Some d) ->
     srv_get_array (srv w) (count is_get_array (trace w) + k) = None ->
     exists N : nat, forall fuel : nat, (N <= fuel)%nat ->
       exists w' t evs,
         run FPS_fps FPS_str fuel w = Raise ConnectionError w'
         /\ trace w' = (t ++ SrvGetArray "density" :: Pump :: evs)%list
         /\ forallb is_host evs = true
         /\ count is_render t = (count is_render (trace w) + k)%nat
         /\ count is_get_array t = (count is_get_array (trace w) + k)%nat
         /\ count is_call t = (count is_call (trace w) + S k)%nat
         /\ count is_quit (trace w') = count is_quit (trace w)
         /\ run_state w' = Running
         /\ _fps w' = true
         /\ fps_active (fps_obj w') = false)
  /\ (forall (FPS_fps : FPS -> Q -> Q) (FPS_str : FPS -> Q -> string)
        (w : World),
        browser_control (cfg w) = true ->
        _running w = true ->
        srv_get_ok (srv w) ["Nx"; "Ny"] = true ->
        srv_get_ok (srv w) ["layout"] = true ->
        fst (srv_grid (srv w)) <> 0%Z ->
        0 < _poll_interval (cfg w) ->
        (0 < frames (cfg w))%nat ->
        timeout_allows 0 w ->
        srv_get_array (srv w) (count is_get_array (trace w)) = None ->
        exists N : nat, forall fuel : nat, (N <= fuel)%nat ->
          exists w' t evs,
            run FPS_fps FPS_str fuel w = Raise ConnectionError w'
            /\ trace w' = (t ++ SrvGetArray "density" :: Pump :: evs)%list
            /\ forallb is_host evs = true
            /\ count is_render t = count is_render (trace w)
            /\ count is_call t = S (count is_call (trace w))
            /\ count is_quit (trace w') = count is_quit (trace w)
            /\ run_state w' = Running
            /\ _fps w' = true
            /\ w_density_on_update (widgets w') = true
            /\ fps_active (fps_obj w') = false).
Proof.
  split; [exact run_connection_error | exact run_browser_connection_error].
Qed.

(** Scenario B at a fresh self-driven client, where the 3rd fetch fails, and
    a browser-driven client whose first fetch fails. *)
Lemma connection_error_at_third_fetch :
  (exists N : nat, forall fuel : nat, (N <= fuel)%nat ->
     exists w' t evs,
       run measured_fps plain_str fuel (fresh_client 5 [2%nat])
       = Raise ConnectionError w'
       /\ trace w' = (t ++ SrvGetArray "density" :: Pump :: evs)%list
       /\ forallb is_host evs = true
       /\ count is_render t = 2%nat
       /\ count is_get_array t = 2%nat
       /\ count is_call t = 3%nat
       /\ count is_quit (trace w') = 0%nat
       /\ run_state w' = Running
       /\ _fps w' = true
       /\ fps_active (fps_obj w') = false)
  /\ (exists N : nat, forall fuel : nat, (N <= fuel)%nat ->
        exists w' t evs,
          run measured_fps plain_str fuel browser_client
          = Raise ConnectionError w'
          /\ trace w' = (t ++ SrvGetArray "density" :: Pump :: evs)%list
          /\ forallb is_host evs = true
          /\ count is_render t = 0%nat
          /\ count is_call t = 1%nat
          /\ count is_quit (trace w') = 0%nat
          /\ run_state w' = Running
          /\ _fps w' = true
          /\ w_density_on_update (widgets w') = true
          /\ fps_active (fps_obj w') = false).
Proof.
  split.
  - apply (proj1 connection_error_leaves_run measured_fps plain_str 2%nat
             (fresh_client 5 [2%nat])).
    + reflexivity.
    + reflexivity.
    + reflexivity.
    + reflexivity.
    + simpl. lia.
    + reflexivity.
    + simpl. lia.
    + exact I.
    + intros n Hn. exists [].
      destruct n as [|[|n]]; [reflexivity | reflexivity | lia].
    + reflexivity.
  - apply (proj2 connection_error_leaves_run measured_fps plain_str
             browser_client).
    + reflexivity.
    + reflexivity.
    + reflexivity.
    + reflexivity.
    + simpl. lia.
    + reflexivity.
    + simpl. lia.
    + reflexivity.
    + reflexivity.
Defined.

(** C1, as stated, fails in Scenario B: when the 3rd fetch raises, two frames
    were rendered and the error ends [run], but [do("quit")] is sent zero
    times, not once, and RunState is still Running, not Stopped. *)
Lemma scenario_B_sends_no_quit :
  raised (run measured_fps plain_str 50 (fresh_client 5 [2%nat]))
  = Some ConnectionError
  /\ option_map (fun w => count is_render (trace w))
       (world_of (run measured_fps plain_str 50 (fresh_client 5 [2%nat])))
     = Some 2%nat
  /\ option_map (fun w => count is_quit (trace w))
       (world_of (run measured_fps plain_str 50 (fresh_client 5 [2%nat])))
     = Some 0%nat
  /\ option_map run_state
       (world_of (run measured_fps plain_str 50 (fresh_client 5 [2%nat])))
     = Some Running.
Proof. repeat split; vm_compute; reflexivity. Qed.



(** ** Two sessions, event by event *)

(** A self-driven session with a budget of two frames at 10 frames per
    second and a poll interval of 1/20 s: the handshake, one frame fetched,
    rendered and paced by two sleeps, the polls of the loop, the second call
    of the Update Cycle (which finds the budget used up), and the quit. *)
Example two_frame_session :
  option_map trace
    (world_of (run measured_fps plain_str 50 (fresh_client 2 [])))
  = Some [SrvGet ["Nx"; "Ny"]; SrvGet ["layout"]; Display;
          CallUpdateFrame; SrvGetArray "density";
          Render (get_rgba_from_density []);
          Pump; Pump; Sleep (1 # 20); Pump; Sleep (1 # 20);
          Pump; Pump;
          CallUpdateFrame; Pump; Pump;
          SrvDo "quit"].
Proof. vm_compute. reflexivity. Qed.

(** Scenario B: the third fetch fails; the trace ends with the pacing of
    the failed frame. *)
Example failing_session :
  option_map trace
    (world_of (run measured_fps plain_str 50 (fresh_client 5 [2%nat])))
  = Some [SrvGet ["Nx"; "Ny"]; SrvGet ["layout"]; Display;
          CallUpdateFrame; SrvGetArray "density";
          Render (get_rgba_from_density []);
          Pump; Pump; Sleep (1 # 20); Pump; Sleep (1 # 20);
          Pump; Pump;
          CallUpdateFrame; SrvGetArray "density";
          Render (get_rgba_from_density []);
          Pump; Pump; Sleep (1 # 20); Pump; Sleep (1 # 20);
          Pump; Pump;
          CallUpdateFrame; SrvGetArray "density";
          Pump; Pump; Sleep (1 # 20); Pump; Sleep (1 # 20)].
Proof. vm_compute. reflexivity. Qed.

(** * Further properties *)

(** ** Control events *)

Lemma act_control (FPS_fps : FPS -> Q -> Q) (FPS_str : FPS -> Q -> string)
    (a : Action) (w : World) :
  is_control a = true -> _running w = true ->
  act FPS_fps FPS_str a w
  = Ret tt (set_trace (trace w ++ forwarded a) w).
Proof.
  intros Hc Hr. destruct a; simpl in Hc; try discriminate; simpl.
  - unfold on_value_change, server_set. run_monad. rewrite Hr. reflexivity.
  - unfold on_click, server_do. run_monad. rewrite Hr. simpl.
    apply negb_true_iff in Hc. rewrite Hc. reflexivity.
Qed.

(** X1.  On a running client every value change and every click on a button
    other than quit is forwarded, one call of the server for each, in the
    order of the events; nothing is dropped or merged and RunState stays
    Running. *)
Theorem controls_forwarded_in_order :
  forall (FPS_fps : FPS -> Q -> Q) (FPS_str : FPS -> Q -> string)
    (calls : list Action) (w : World),
    forallb is_control calls = true ->
    _running w = true ->
    perform FPS_fps FPS_str calls w
    = Ret tt (set_trace (trace w ++ flat_map forwarded calls) w).
Proof.
  intros FPS_fps FPS_str calls.
  induction calls as [|a calls IH]; intros w Hc Hr.
  - simpl. unfold ret. rewrite app_nil_r. destruct w; reflexivity.
  - simpl in Hc. apply andb_true_iff in Hc as [Ha Hl].
    cbn [perform]. unfold bind. rewrite (act_control _ _ a w Ha Hr).
    rewrite IH by assumption. cbn [flat_map]. simpl.
    rewrite <- app_assoc. reflexivity.
Qed.

(** Three controls on a fresh client. *)
Lemma three_controls_forwarded :
  perform measured_fps plain_str
    [ValueChange "cooling" (1 # 100); Click "reset"; ValueChange "V0" 2]
    (fresh_client 5 [])
  = Ret tt
      (set_trace
         (trace (fresh_client 5 [])
          ++ [SrvSet "cooling" (1 # 100); SrvDo "reset"; SrvSet "V0" 2])
         (fresh_client 5 [])).
Proof.
  apply (controls_forwarded_in_order measured_fps plain_str
           [ValueChange "cooling" (1 # 100); Click "reset"; ValueChange "V0" 2]
           (fresh_client 5 [])).
  - reflexivity.
  - reflexivity.
Defined.

(** ** Pointer state *)

(** X2.  A pointer-move changes nothing while the pointer is up; pointer-up and
    pointer-out always return and leave the pointer up, so that a move after
    either of them changes nothing more. *)
Theorem pointer_move_needs_down :
  forall (x y x' y' : Q) (w : World),
    (_mouse_down w = false -> _handle_mouse_move x y w = Ret tt w)
    /\ _handle_mouse_up x y w = Ret tt (set_mouse_down false w)
    /\ _handle_mouse_out x y w = Ret tt (set_mouse_down false w)
    /\ (_handle_mouse_up x y ;; _handle_mouse_move x' y') w
       = _handle_mouse_up x y w
    /\ (_handle_mouse_out x y ;; _handle_mouse_move x' y') w
       = _handle_mouse_out x y w.
Proof.
  intros x y x' y' w. repeat split.
  intro H. unfold _handle_mouse_move. run_monad. rewrite H. reflexivity.
Qed.

Lemma set_finger_effect (x y : Q) (w : World) :
  exists e w' evs,
    _set_finger x y w = Raise e w'
    /\ _running w' = _running w
    /\ _mouse_down w' = _mouse_down w
    /\ w_density_width (widgets w') = w_density_width (widgets w)
    /\ w_density_height (widgets w') = w_density_height (widgets w)
    /\ trace w' = (trace w ++ evs)%list
    /\ forallb is_set evs = true
    /\ (_running w = false -> evs = [])
    /\ (_running w = true ->
        ~ w_density_width (widgets w) == 0 ->
        ~ w_density_height (widgets w) == 0 ->
        evs = [SrvSet "finger_x" (x / w_density_width (widgets w));
               SrvSet "finger_y" (1 - y / w_density_height (widgets w))]).
Proof.
  destruct (Qeq_bool (w_density_width (widgets w)) 0) eqn:EW.
  - exists ZeroDivisionError, w, []. rewrite app_nil_r.
    split; [|repeat split; auto].
    + unfold _set_finger. run_monad. unfold pydiv. rewrite EW. reflexivity.
    + intros _ HW. apply Qeq_bool_iff in EW. contradiction.
  - assert (HW : ~ w_density_width (widgets w) == 0)
      by (apply Qeq_bool_neq; exact EW).
    destruct (Qeq_bool (w_density_height (widgets w)) 0) eqn:EH.
    + destruct (_running w) eqn:R.
      * do 2 eexists.
        exists [SrvSet "finger_x" (x / w_density_width (widgets w))].
        split.
        -- unfold _set_finger. unfold bind at 1. unfold gets at 1.
           unfold bind at 1. rewrite (pydiv_nonzero _ _ _ HW).
           unfold bind at 1. rewrite assign_finger_x_runs. rewrite R.
           run_monad. unfold pydiv. rewrite EH. reflexivity.
        -- simpl. repeat split; auto; try discriminate.
           intros _ _ HH. apply Qeq_bool_iff in EH. contradiction.
      * do 2 eexists. exists []. split.
        -- unfold _set_finger. unfold bind at 1. unfold gets at 1.
           unfold bind at 1. rewrite (pydiv_nonzero _ _ _ HW).
           unfold bind at 1. rewrite assign_finger_x_runs. rewrite R.
           run_monad. unfold pydiv. rewrite EH. reflexivity.
        -- simpl. rewrite app_nil_r. repeat split; auto; discriminate.
    + assert (HH : ~ w_density_height (widgets w) == 0)
        by (apply Qeq_bool_neq; exact EH).
      destruct (set_finger_raises x y w HW HH)
        as [w' [E [_ [_ [R [D [T [Hw1 Hh1]]]]]]]].
      exists (NameError "finger_x"), w'. eexists.
      split; [exact E|]. split; [exact R|]. split; [exact D|].
      split; [exact Hw1|]. split; [exact Hh1|]. split; [exact T|].
      destruct (_running w); repeat split; auto; discriminate.
Qed.


(** ** Pacing *)

Lemma sync_exit_late (fuel : nat) (tic : Q) (w : World) :
  tic + period w <= clock w ->
  sync_exit fuel tic w = Ret tt (set_trace (trace w ++ [Pump]) w).
Proof.
  intro H. unfold sync_exit, do_one_iteration. run_monad.
  rewrite pydiv_nonzero
    by (assert (X := sync_rate_ge_1 w); unfold sync_rate in *; simpl; lra).
  simpl.
  assert (E : Qltb (clock w)
                (tic + 1 / sync_rate (set_trace (trace w ++ [Pump]) w)) = false).
  { apply Qltb_false. exact H. }
  destruct fuel; simpl; rewrite E; reflexivity.
Qed.

(** X4.  Pacing overrun: when the body of a [sync] scope ends at or after the
    deadline [tic + 1 / max(rate, 1)], the exit block yields one scheduler
    tick and nothing else: no sleep, whatever the poll interval, and the
    outcome of the body is passed on. *)
Theorem late_frame_is_not_delayed :
  forall (A : Type) (body : M A) (fuel : nat) (w wb : World),
    world_of (body w) = Some wb ->
    clock w + 1 / Qmax (TargetRate wb) 1 <= clock wb ->
    sync fuel body w
    = with_world (body w) (set_trace (trace wb ++ [Pump]) wb).
Proof.
  intros A body fuel w wb Hb Hl. unfold sync, try_finally. run_monad.
  destruct (body w) as [a w0|e w0|]; simpl in Hb; try discriminate;
    injection Hb as ->; rewrite sync_exit_late by exact Hl; reflexivity.
Qed.

(** A body that takes two seconds at a rate of 1: no wait. *)
Lemma late_frame_at_fresh_client :
  sync 0 (modify (set_clock 2)) (fresh_client 5 [])
  = with_world (modify (set_clock 2) (fresh_client 5 []))
      (set_trace (trace (set_clock 2 (fresh_client 5 [])) ++ [Pump])
         (set_clock 2 (fresh_client 5 []))).
Proof.
  apply (late_frame_is_not_delayed unit (modify (set_clock 2)) 0
           (fresh_client 5 []) (set_clock 2 (fresh_client 5 []))).
  - reflexivity.
  - vm_compute. discriminate.
Defined.

(** ** The number of polls after a frame *)

(** X6.  With a positive poll interval the self-driven loop runs just enough
    scheduler ticks after a frame to cover one interval [1 / max(1,
    fps.fps)]: at least one, and less than one poll interval too many.  A
    poll interval of zero makes the count a ZeroDivisionError; a negative
    one gives no tick at all. *)
Theorem polls_cover_one_interval :
  forall (FPS_fps : FPS -> Q -> Q) (w : World),
    (0 < _poll_interval (cfg w) ->
     exists n : nat,
       poll_count FPS_fps w = Ret n w
       /\ (0 < n)%nat
       /\ 1 / poll_rate FPS_fps w
          <= inject_Z (Z.of_nat n) * _poll_interval (cfg w)
       /\ inject_Z (Z.of_nat n) * _poll_interval (cfg w)
          < 1 / poll_rate FPS_fps w + _poll_interval (cfg w))
    /\ (_poll_interval (cfg w) == 0 ->
        poll_count FPS_fps w = Raise ZeroDivisionError w)
    /\ (_poll_interval (cfg w) < 0 ->
        poll_count FPS_fps w = Ret 0%nat w).
Proof.
  intros FPS_fps w.
  assert (Hr := poll_rate_ge_1 FPS_fps w).
  set (r := poll_rate FPS_fps w) in *.
  set (p := _poll_interval (cfg w)).
  assert (Hx : 0 < 1 / r).
  { assert (E : 1 / r == / r) by (field; lra). rewrite E.
    apply Qinv_lt_0_compat. lra. }
  split; [|split].
  - intro Hp. rewrite poll_count_value by (fold p; lra). fold r p.
    eexists. split; [reflexivity|].
    assert (Hc := Qle_ceiling (1 / r / p)).
    assert (Hl := Qceiling_lt (1 / r / p)).
    set (c := Qceiling (1 / r / p)) in *.
    assert (Hq : 0 < 1 / r / p).
    { unfold Qdiv at 1. apply Qmult_lt_0_compat; [exact Hx|].
      apply Qinv_lt_0_compat. exact Hp. }
    assert (Hc1 : (1 <= c)%Z).
    { assert (0 < inject_Z c) by lra.
      change 0 with (inject_Z 0) in H. rewrite <- Zlt_Qlt in H. lia. }
    assert (E : 1 / r == (1 / r / p) * p) by (field; lra).
    rewrite Z2Nat.id by lia.
    split; [lia|]. split.
    + rewrite E at 1. apply Qmult_le_compat_r; [exact Hc | lra].
    + unfold Z.sub in Hl. rewrite inject_Z_plus, inject_Z_opp in Hl.
      change (inject_Z 1) with 1 in Hl.
      assert ((inject_Z c - 1) * p < (1 / r / p) * p)
        by (apply Qmult_lt_compat_r; assumption).
      rewrite <- E in H. lra.
  - intro Hp. unfold poll_count. run_monad. fold r.
    rewrite pydiv_nonzero by lra. simpl. unfold pydiv.
    apply Qeq_bool_iff in Hp. fold p. rewrite Hp. reflexivity.
  - intro Hp. rewrite poll_count_value by (fold p; lra). fold r p.
    f_equal.
    assert (Hq : 1 / r / p < 0).
    { assert (E : 1 / r / p == - ((1 / r) * / (- p))) by (field; lra).
      rewrite E.
      assert (0 < (1 / r) * / (- p)).
      { apply Qmult_lt_0_compat; [exact Hx|].
        apply Qinv_lt_0_compat. lra. }
      lra. }
    assert (Hl := Qceiling_lt (1 / r / p)).
    set (c := Qceiling (1 / r / p)) in *.
    unfold Z.sub in Hl. rewrite inject_Z_plus, inject_Z_opp in Hl.
      change (inject_Z 1) with 1 in Hl.
    assert (inject_Z c < inject_Z 1) by (change (inject_Z 1) with 1; lra).
    rewrite <- Zlt_Qlt in H. lia.
Qed.

(** One frame into a session at 10 frames per second, with a poll interval
    of 1/20 s: two ticks. *)
Lemma polls_at_retuned_client :
  exists n : nat,
    poll_count measured_fps retuned_client = Ret n retuned_client
    /\ (0 < n)%nat
    /\ 1 / poll_rate measured_fps retuned_client
       <= inject_Z (Z.of_nat n) * (1 # 20)
    /\ inject_Z (Z.of_nat n) * (1 # 20)
       < 1 / poll_rate measured_fps retuned_client + (1 # 20).
Proof.
  apply (proj1 (polls_cover_one_interval measured_fps retuned_client)).
  reflexivity.
Defined.

(** ** The handshake of run *)

(** X7.  [run] ends with the exception of its set-up, before the Frame Rate
    Limiter exists, before any frame is fetched and without [do("quit")]:
    ConnectionError when [get(["Nx", "Ny"])] is not answered (nothing but
    the attempt has happened), ConnectionError when [get(["layout"])] is not
    answered (the grid size is stored, nothing is displayed), and
    ZeroDivisionError when the server reports [Nx = 0] (the widget is
    displayed with its initial width of 500 and the target rate has not been
    set from the options). *)
Theorem handshake_failure_ends_run :
  forall (FPS_fps : FPS -> Q -> Q) (FPS_str : FPS -> Q -> string)
    (fuel : nat) (w : World),
    (srv_get_ok (srv w) ["Nx"; "Ny"] = false ->
     run FPS_fps FPS_str fuel w
     = Raise ConnectionError (set_trace (trace w ++ [SrvGet ["Nx"; "Ny"]]) w))
    /\ (srv_get_ok (srv w) ["Nx"; "Ny"] = true ->
        srv_get_ok (srv w) ["layout"] = false ->
        exists w',
          run FPS_fps FPS_str fuel w = Raise ConnectionError w'
          /\ trace w' = (trace w ++ [SrvGet ["Nx"; "Ny"]; SrvGet ["layout"]])%list
          /\ (Nx w', Ny w') = srv_grid (srv w)
          /\ widgets w' = widgets w
          /\ _running w' = _running w
          /\ _fps w' = _fps w
          /\ fps_obj w' = fps_obj w)
    /\ (srv_get_ok (srv w) ["Nx"; "Ny"] = true ->
        srv_get_ok (srv w) ["layout"] = true ->
        fst (srv_grid (srv w)) = 0%Z ->
        exists w',
          run FPS_fps FPS_str fuel w = Raise ZeroDivisionError w'
          /\ trace w' = (trace w ++ [SrvGet ["Nx"; "Ny"]; SrvGet ["layout"];
                                     Display])%list
          /\ w_density_width (widgets w') = 500
          /\ TargetRate w' = TargetRate w
          /\ _running w' = _running w
          /\ _fps w' = _fps w
          /\ fps_obj w' = fps_obj w).
Proof.
  intros FPS_fps FPS_str fuel w. split; [|split].
  - intro Hg. unfold run, server_get. run_monad. rewrite Hg. reflexivity.
  - intros Hg Hl. unfold run, get_widget, server_get. run_monad.
    rewrite Hg. simpl. rewrite Hl. simpl.
    eexists. split; [reflexivity|]. simpl.
    rewrite <- app_assoc. repeat split.
    destruct (srv_grid (srv w)); reflexivity.
  - intros Hg Hl Hz. unfold run, get_widget, server_get. run_monad.
    rewrite Hg. simpl. rewrite Hl. simpl. rewrite Hz. simpl.
    eexists. split; [reflexivity|]. simpl.
    rewrite <- !app_assoc. repeat split.
Qed.

(** The three failures of the set-up, each at a client of its own. *)
Lemma handshake_failures :
  run measured_fps plain_str 50 deaf_client
  = Raise ConnectionError
      (set_trace (trace deaf_client ++ [SrvGet ["Nx"; "Ny"]]) deaf_client)
  /\ (exists w',
        run measured_fps plain_str 50 bare_client = Raise ConnectionError w'
        /\ trace w' = (trace bare_client
                       ++ [SrvGet ["Nx"; "Ny"]; SrvGet ["layout"]])%list
        /\ (Nx w', Ny w') = srv_grid (srv bare_client)
        /\ widgets w' = widgets bare_client
        /\ _running w' = _running bare_client
        /\ _fps w' = _fps bare_client
        /\ fps_obj w' = fps_obj bare_client)
  /\ (exists w',
        run measured_fps plain_str 50 flat_client = Raise ZeroDivisionError w'
        /\ trace w' = (trace flat_client
                       ++ [SrvGet ["Nx"; "Ny"]; SrvGet ["layout"]; Display])%list
        /\ w_density_width (widgets w') = 500
        /\ TargetRate w' = TargetRate flat_client
        /\ _running w' = _running flat_client
        /\ _fps w' = _fps flat_client
        /\ fps_obj w' = fps_obj flat_client).
Proof.
  split; [|split].
  - apply (proj1 (handshake_failure_ends_run measured_fps plain_str 50
                    deaf_client)).
    reflexivity.
  - apply (proj1 (proj2 (handshake_failure_ends_run measured_fps plain_str 50
                           bare_client))); reflexivity.
  - apply (proj2 (proj2 (handshake_failure_ends_run measured_fps plain_str 50
                           flat_client))); reflexivity.
Defined.

(** ** One Update Cycle *)

Lemma update_frame_body_writes (FPS_str : FPS -> Q -> string) (w : World)
    (d : Density) :
  srv_get_array (srv w) (count is_get_array (trace w)) = Some d ->
  exists w1,
    update_frame_body FPS_str w = Ret tt w1
    /\ client_of w1
       = (cfg w, srv w, _running w, _mouse_down w, _fps w, Nx w, Ny w,
          set_fps_frame (S (fps_frame (fps_obj w))) (fps_obj w),
          upd_w_msg_value
            (FPS_str (set_fps_frame (S (fps_frame (fps_obj w))) (fps_obj w))
               (clock w) ++ "fps")
            (upd_w_density_rgba (Some (get_rgba_from_density d)) (widgets w)))
    /\ clock w1 = clock w
    /\ trace w1 = (trace w ++ [SrvGetArray "density";
                               Render (get_rgba_from_density d)])%list.
Proof.
  intro H. unfold update_frame_body, get_density, server_get_array. run_monad.
  change (count_get_array (trace w)) with (count is_get_array (trace w)).
  rewrite H. simpl. eexists. split; [reflexivity|]. simpl.
  repeat split. rewrite <- app_assoc. reflexivity.
Qed.

(** X8.  An Update Cycle that passes its guard and whose fetch is answered:
    one [get_array("density")], the image put on the display, the limiter's
    frame counter up by one, the label set to the limiter's string followed
    by "fps", then the pacing, which does not end before one period
    [1 / max(rate, 1)] has passed since the cycle began.  Nothing else of
    the client changes. *)
Theorem update_frame_shows_one_frame :
  forall (FPS_str : FPS -> Q -> string) (w : World) (d : Density),
    _fps w = true -> _running w = true ->
    FPS_bool (fps_obj w) (clock w) = true ->
    srv_get_array (srv w) (count is_get_array (trace w)) = Some d ->
    0 < _poll_interval (cfg w) ->
    exists N : nat, forall fuel : nat, (N <= fuel)%nat ->
      exists w' evs,
        update_frame FPS_str fuel w = Ret tt w'
        /\ client_of w'
           = (cfg w, srv w, _running w, _mouse_down w, _fps w, Nx w, Ny w,
              set_fps_frame (S (fps_frame (fps_obj w))) (fps_obj w),
              upd_w_msg_value
                (FPS_str (set_fps_frame (S (fps_frame (fps_obj w))) (fps_obj w))
                   (clock w) ++ "fps")
                (upd_w_density_rgba (Some (get_rgba_from_density d))
                   (widgets w)))
        /\ trace w' = (trace w ++ SrvGetArray "density"
                               :: Render (get_rgba_from_density d)
                               :: Pump :: evs)%list
        /\ forallb is_host evs = true
        /\ clock w + 1 / Qmax (TargetRate w) 1 <= clock w'.
Proof.
  intros FPS_str w d Hb Hr Hf Hd Hp.
  destruct (polls_cover 1 _ Hp) as [N HN].
  exists N. intros fuel Hfuel.
  assert (Hw := fuel_bound fuel N _ Hp HN Hfuel).
  unfold update_frame. run_monad. rewrite Hb, Hr, Hf. simpl.
  unfold sync, try_finally. run_monad.
  destruct (update_frame_body_writes FPS_str w d Hd) as [w1 [R [C1 [K1 Tr1]]]].
  rewrite R.
  assert (Hc1 : cfg w1 = cfg w)
    by (unfold client_of in C1; injection C1 as -> _ _ _ _ _ _ _ _; reflexivity).
  assert (Hper : period w1 = period w).
  { apply period_of_rate. unfold TargetRate, client_of in *.
    injection C1 as _ _ _ _ _ _ _ _ ->. reflexivity. }
  destruct (sync_exit_runs fuel (clock w) w1) as [w' [E [C [[evs [Tr P]] [G _]]]]].
  - rewrite Hc1. exact Hp.
  - rewrite Hc1, Hper, K1.
    assert (X := wait_covers_period fuel w Hp Hw). lra.
  - rewrite E. exists w', evs. split; [reflexivity|].
    split; [congruence|]. split; [|split].
    + rewrite Tr, Tr1, <- app_assoc. reflexivity.
    + exact (Paced_host _ _ _ _ _ P).
    + rewrite Hper in G. exact G.
Qed.

(** The second frame of a session whose rate control was moved to 20 after
    the first: the cycle takes 1/20 s at least. *)
Lemma second_frame_at_retuned_client :
  exists N : nat, forall fuel : nat, (N <= fuel)%nat ->
    exists w' evs,
      update_frame plain_str fuel retuned_client = Ret tt w'
      /\ client_of w'
         = (cfg retuned_client, srv retuned_client, true, false, true,
            0%Z, 0%Z, mkFPS 5 None 1 0 2 true,
            upd_w_msg_value "fps"
              (upd_w_density_rgba (Some (get_rgba_from_density []))
                 (widgets retuned_client)))
      /\ trace w' = ([] ++ SrvGetArray "density"
                        :: Render (get_rgba_from_density [])
                        :: Pump :: evs)%list
      /\ forallb is_host evs = true
      /\ (1 # 10) + 1 / Qmax 20 1 <= clock w'.
Proof.
  apply (update_frame_shows_one_frame plain_str retuned_client []);
    reflexivity.
Defined.

(** X9.  An Update Cycle that passes its guard and whose fetch fails: the
    display keeps the image, the counter and the label it had, the pacing
    runs all the same and does not end before one period has passed since
    the cycle began, and ConnectionError leaves the cycle. *)
Theorem failed_fetch_keeps_display :
  forall (FPS_str : FPS -> Q -> string) (w : World),
    _fps w = true -> _running w = true ->
    FPS_bool (fps_obj w) (clock w) = true ->
    srv_get_array (srv w) (count is_get_array (trace w)) = None ->
    0 < _poll_interval (cfg w) ->
    exists N : nat, forall fuel : nat, (N <= fuel)%nat ->
      exists w' evs,
        update_frame FPS_str fuel w = Raise ConnectionError w'
        /\ client_of w' = client_of w
        /\ trace w' = (trace w ++ SrvGetArray "density" :: Pump :: evs)%list
        /\ forallb is_host evs = true
        /\ clock w + 1 / Qmax (TargetRate w) 1 <= clock w'.
Proof.
  intros FPS_str w Hb Hr Hf Hd Hp.
  destruct (polls_cover 1 _ Hp) as [N HN].
  exists N. intros fuel Hfuel.
  assert (Hw := fuel_bound fuel N _ Hp HN Hfuel).
  unfold update_frame. run_monad. rewrite Hb, Hr, Hf. simpl.
  unfold sync, try_finally. run_monad.
  rewrite (update_frame_body_fail FPS_str w Hd).
  set (w1 := set_trace (trace w ++ [SrvGetArray "density"]) w).
  destruct (sync_exit_runs fuel (clock w) w1) as [w' [E [C [[evs [Tr P]] [G _]]]]].
  - exact Hp.
  - change (period w1) with (period w). change (clock w1) with (clock w).
    change (cfg w1) with (cfg w).
    assert (X := wait_covers_period fuel w Hp Hw). lra.
  - rewrite E. exists w', evs. split; [reflexivity|]. split; [exact C|].
    split; [|split].
    + rewrite Tr. unfold w1. simpl. rewrite <- app_assoc. reflexivity.
    + exact (Paced_host _ _ _ _ _ P).
    + exact G.
Qed.

(** The same cycle with a server that does not answer the fetch. *)
Lemma failed_frame_at_retuned_client :
  exists N : nat, forall fuel : nat, (N <= fuel)%nat ->
    exists w' evs,
      update_frame plain_str fuel failing_frame_client
      = Raise ConnectionError w'
      /\ client_of w' = client_of failing_frame_client
      /\ trace w' = (trace failing_frame_client
                     ++ SrvGetArray "density" :: Pump :: evs)%list
      /\ forallb is_host evs = true
      /\ clock failing_frame_client
         + 1 / Qmax (TargetRate failing_frame_client) 1 <= clock w'.
Proof.
  apply (failed_fetch_keeps_display plain_str failing_frame_client);
    reflexivity.
Defined.

(** ** What leaves RunState and the trace alone *)

Section Keeps.

Variable p : Event -> bool.
Variable v : bool * nat.

Lemma keeps_ret {A} (a : A) : keeps p v (ret a).
Proof. intros w H. exact H. Qed.

Lemma keeps_raise {A} (e : Exn) : keeps p v (raise (A:=A) e).
Proof. intros w H. exact H. Qed.

Lemma keeps_gets {A} (f : World -> A) : keeps p v (gets f).
Proof. intros w H. exact H. Qed.

Lemma hoare_bind {A B} (P R Post E : World -> Prop) (m : M A)
    (k : A -> M B) :
  hoare P m R E -> (forall a, hoare R (k a) Post E) ->
  hoare P (bind m k) Post E.
Proof.
  intros Hm Hk w HP. unfold bind. specialize (Hm w HP).
  destruct (m w) as [a w1|e w1|]; auto. apply (Hk a w1 Hm).
Qed.

Lemma keeps_bind {A B} (m : M A) (k : A -> M B) :
  keeps p v m -> (forall a, keeps p v (k a)) -> keeps p v (bind m k).
Proof. apply hoare_bind. Qed.

Lemma keeps_finally {A} (body : M A) (fin : M unit) :
  keeps p v body -> keeps p v fin -> keeps p v (try_finally body fin).
Proof.
  intros Hb Hf w H. unfold try_finally. specialize (Hb w H).
  destruct (body w) as [a w1|e w1|]; auto;
    specialize (Hf w1 Hb); destruct (fin w1); auto.
Qed.

Lemma keeps_modify (g : World -> World) :
  (forall w, _running (g w) = _running w) ->
  (forall w, trace (g w) = trace w) ->
  keeps p v (modify g).
Proof.
  intros Hr Ht w H. unfold modify, view in *. rewrite Hr, Ht. exact H.
Qed.

Lemma keeps_emit (e : Event) : p e = false -> keeps p v (emit e).
Proof.
  intros He w H. unfold emit, modify, view in *. simpl.
  rewrite count_app. unfold count at 2. simpl. rewrite He. simpl.
  rewrite Nat.add_0_r. exact H.
Qed.

Lemma keeps_pydiv (x y : Q) : keeps p v (pydiv x y).
Proof.
  unfold pydiv. destruct (Qeq_bool y 0); [apply keeps_raise | apply keeps_ret].
Qed.

Ltac keeps_steps :=
  repeat first
    [ apply keeps_ret | apply keeps_raise | apply keeps_gets
    | apply keeps_pydiv
    | apply keeps_modify; [intro; reflexivity | intro; reflexivity]
    | apply keeps_emit; solve [auto]
    | apply keeps_bind; [|intro]
    | assumption ].

Hypothesis p_host : forall e, is_host e = true -> p e = false.

Lemma keeps_pump : keeps p v do_one_iteration.
Proof. apply keeps_emit. apply p_host. reflexivity. Qed.

Lemma keeps_sleep (dt : Q) : keeps p v (sleep dt).
Proof.
  unfold sleep. destruct (Qltb dt 0); [apply keeps_raise|].
  apply keeps_bind; [apply keeps_emit; apply p_host; reflexivity|].
  intro. apply keeps_modify; intro; reflexivity.
Qed.

Lemma keeps_sync_wait (fuel : nat) :
  forall tc tok : Q, keeps p v (sync_wait fuel tc tok).
Proof.
  induction fuel as [|n IH]; intros tc tok; simpl.
  - destruct (Qltb tok tc); [intros w H; exact I | apply keeps_ret].
  - destruct (Qltb tok tc); [|apply keeps_ret].
    apply keeps_bind; [apply keeps_pump|]. intro.
    apply keeps_bind; [apply keeps_gets|]. intro tok1.
    apply keeps_bind; [apply keeps_gets|]. intro poll.
    apply keeps_bind.
    + destruct (Qltb 0 (Qmin poll (tc - tok1)));
        [apply keeps_sleep | apply keeps_ret].
    + intro. apply keeps_bind; [apply keeps_gets|]. intro. apply IH.
Qed.

Lemma keeps_sync_exit (fuel : nat) (tic : Q) : keeps p v (sync_exit fuel tic).
Proof.
  unfold sync_exit.
  apply keeps_bind; [apply keeps_pump|]. intro.
  apply keeps_bind; [apply keeps_gets|]. intro.
  apply keeps_bind; [apply keeps_pydiv|]. intro.
  apply keeps_bind; [apply keeps_gets|]. intro.
  apply keeps_sync_wait.
Qed.

Lemma keeps_sync {A} (fuel : nat) (body : M A) :
  keeps p v body -> keeps p v (sync fuel body).
Proof.
  intro H. unfold sync. apply keeps_bind; [apply keeps_gets|]. intro tic.
  apply keeps_finally; [exact H | apply keeps_sync_exit].
Qed.

(** The Update Cycle keeps the view when its own events are not watched. *)
Lemma keeps_update_frame_unwatched (FPS_str : FPS -> Q -> string)
    (fuel : nat) :
  (forall name, p (SrvGetArray name) = false) ->
  (forall img, p (Render img) = false) ->
  keeps p v (update_frame FPS_str fuel).
Proof.
  intros Hg Hr. unfold update_frame.
  apply keeps_bind; [apply keeps_gets|]. intro.
  apply keeps_bind; [apply keeps_gets|]. intro.
  apply keeps_bind; [apply keeps_gets|]. intro.
  apply keeps_bind; [apply keeps_gets|]. intro.
  destruct (negb _ || negb _); [apply keeps_ret|].
  apply keeps_sync. unfold update_frame_body, get_density, server_get_array.
  apply keeps_bind.
  - apply keeps_bind; [apply keeps_gets|]. intro.
    apply keeps_bind; [apply keeps_emit; apply Hg|]. intro.
    apply keeps_bind; [apply keeps_gets|]. intros [d|];
      [apply keeps_ret | apply keeps_raise].
  - intro d. keeps_steps.
Qed.

(** The Update Cycle keeps every view of a client that has stopped. *)
Lemma keeps_update_frame_stopped (FPS_str : FPS -> Q -> string)
    (fuel : nat) :
  fst v = false -> keeps p v (update_frame FPS_str fuel).
Proof.
  intros Hv w H. rewrite update_frame_noop; [exact H|].
  left. unfold view in H. rewrite <- H in Hv. exact Hv.
Qed.

Hypothesis p_get : forall keys, p (SrvGet keys) = false.
Hypothesis p_display : p Display = false.
Hypothesis p_call : p CallUpdateFrame = false.

Variable FPS_fps : FPS -> Q -> Q.
Variable FPS_str : FPS -> Q -> string.

Hypothesis keeps_update_frame :
  forall fuel, keeps p v (update_frame FPS_str fuel).

Lemma keeps_server_get (keys : list string) : keeps p v (server_get keys).
Proof.
  unfold server_get.
  apply keeps_bind; [apply keeps_emit; apply p_get|]. intro.
  apply keeps_bind; [apply keeps_gets|]. intros [|];
    [apply keeps_ret | apply keeps_raise].
Qed.

Lemma keeps_FPS_next : keeps p v FPS_next.
Proof.
  unfold FPS_next.
  apply keeps_bind; [apply keeps_gets|]. intro now.
  apply keeps_bind; [apply keeps_gets|]. intro f.
  destruct (negb (fps_active f) || FPS_timed_out f now); [apply keeps_ret|].
  destruct (fps_frames f <=? fps_elapsed_frames f)%nat; [apply keeps_ret|].
  keeps_steps.
Qed.

Lemma keeps_polls (n : nat) : keeps p v (polls n).
Proof.
  induction n as [|n IH]; simpl; [apply keeps_ret|].
  apply keeps_bind; [apply keeps_pump | intro; exact IH].
Qed.

Lemma keeps_poll_count : keeps p v (poll_count FPS_fps).
Proof. unfold poll_count. keeps_steps. Qed.

Lemma keeps_call_update_frame (fuel : nat) :
  keeps p v (call_update_frame FPS_str fuel).
Proof.
  unfold call_update_frame.
  apply keeps_bind; [apply keeps_emit; exact p_call|]. intro.
  apply keeps_update_frame.
Qed.

Lemma keeps_for_frames (wait fuel : nat) :
  keeps p v (for_frames FPS_fps FPS_str wait fuel).
Proof.
  induction fuel as [|n IH]; simpl; [intros w H; exact I|].
  apply keeps_bind; [apply keeps_FPS_next|]. intros [frame|];
    [|apply keeps_ret].
  apply keeps_bind; [apply keeps_gets|]. intro r.
  destruct (negb r); [apply keeps_ret|].
  apply keeps_bind; [apply keeps_call_update_frame|]. intro.
  apply keeps_bind; [apply keeps_poll_count|]. intro.
  apply keeps_bind; [apply keeps_polls|]. intro. exact IH.
Qed.

Lemma keeps_browser_loop (fuel : nat) : keeps p v (browser_loop fuel).
Proof.
  induction fuel as [|n IH]; simpl.
  - apply keeps_bind; [apply keeps_gets|]. intro now.
    apply keeps_bind; [apply keeps_gets|]. intro f.
    apply keeps_bind; [apply keeps_gets|]. intro r.
    destruct (FPS_bool f now && r); [intros w H; exact I | apply keeps_ret].
  - apply keeps_bind; [apply keeps_gets|]. intro now.
    apply keeps_bind; [apply keeps_gets|]. intro f.
    apply keeps_bind; [apply keeps_gets|]. intro r.
    destruct (FPS_bool f now && r); [|apply keeps_ret].
    apply keeps_bind; [apply keeps_pump|]. intro.
    apply keeps_bind; [apply keeps_gets|]. intro.
    apply keeps_bind; [apply keeps_sleep|]. intro. exact IH.
Qed.

Lemma keeps_run_frames (fuel : nat) :
  keeps p v (run_frames FPS_fps FPS_str fuel).
Proof.
  unfold run_frames, with_FPS, FPS_enter, FPS_exit.
  apply keeps_bind; [apply keeps_gets|]. intro.
  apply keeps_bind; [apply keeps_gets|]. intro.
  apply keeps_bind; [keeps_steps|]. intro.
  apply keeps_finally; [|keeps_steps].
  apply keeps_bind; [keeps_steps|]. intro.
  apply keeps_bind; [apply keeps_gets|]. intros [|].
  - apply keeps_bind; [keeps_steps|]. intro.
    apply keeps_bind; [apply keeps_call_update_frame|]. intro.
    apply keeps_bind; [apply keeps_browser_loop|]. intro. keeps_steps.
  - apply keeps_for_frames.
Qed.

(** [run] up to the end of the limiter's scope keeps the view; what
    [run_finish] does from there decides how [run] ends. *)
Lemma hoare_run (fuel : nat) (Post : World -> Prop) :
  hoare (fun w => view p w = v) run_finish Post (fun w => view p w = v) ->
  hoare (fun w => view p w = v) (run FPS_fps FPS_str fuel) Post
    (fun w => view p w = v).
Proof.
  intro Hfin. unfold run, get_widget.
  repeat
    (lazymatch goal with
     | |- hoare _ run_finish _ _ => fail
     | _ => idtac
     end;
     apply hoare_bind with (R := fun w => view p w = v);
     [ first [ apply keeps_server_get | apply keeps_gets | apply keeps_pydiv
             | apply keeps_run_frames
             | apply keeps_emit; exact p_display
             | apply keeps_modify; [intro; reflexivity | intro; reflexivity]
             | apply keeps_bind; [apply keeps_server_get | intro;
                 apply keeps_modify; [intro; reflexivity | intro; reflexivity]] ]
     | intro ]).
  exact Hfin.
Qed.

End Keeps.

(** ** RunState and the quit command over the life of a client *)

Lemma run_finish_quits (v : bool * nat) :
  hoare (fun w => view is_quit w = v) run_finish
    (fun w => view is_quit w = if fst v then (false, S (snd v)) else v)
    (fun w => view is_quit w = v).
Proof.
  intros w H. unfold run_finish, quit, server_do. run_monad.
  unfold view in *. destruct (_running w) eqn:R; simpl; rewrite <- H; simpl.
  - rewrite count_app. unfold count at 2. simpl. f_equal. lia.
  - rewrite R. reflexivity.
Qed.

Lemma run_view (FPS_fps : FPS -> Q -> Q) (FPS_str : FPS -> Q -> string)
    (fuel : nat) (w : World) :
  match run FPS_fps FPS_str fuel w with
  | Ret _ w' =>
      view is_quit w'
      = if _running w then (false, S (count is_quit (trace w)))
        else view is_quit w
  | Raise _ w' => view is_quit w' = view is_quit w
  | OutOfFuel => True
  end.
Proof.
  assert (H := hoare_run is_quit (view is_quit w) host_not_quit
                 (fun _ => eq_refl) eq_refl eq_refl FPS_fps FPS_str
                 (fun fuel' =>
                    keeps_update_frame_unwatched is_quit (view is_quit w)
                      host_not_quit FPS_str fuel'
                      (fun _ => eq_refl) (fun _ => eq_refl))
                 fuel _ (run_finish_quits (view is_quit w)) w eq_refl).
  exact H.
Qed.

(** X10.  Whatever the mode, the server and the fuel: [run] sends [do("quit")]
    exactly when it returns normally on a client that was Running, and then
    once, leaving it Stopped; when it ends in an exception, or on a client
    that was already Stopped, it sends no [do("quit")] and leaves RunState as
    it was. *)
Theorem run_quits_only_at_normal_end :
  forall (FPS_fps : FPS -> Q -> Q) (FPS_str : FPS -> Q -> string)
    (fuel : nat) (w : World),
    match run FPS_fps FPS_str fuel w with
    | Ret _ w' =>
        if _running w
        then _running w' = false
             /\ count is_quit (trace w') = S (count is_quit (trace w))
        else _running w' = false
             /\ count is_quit (trace w') = count is_quit (trace w)
    | Raise _ w' =>
        _running w' = _running w
        /\ count is_quit (trace w') = count is_quit (trace w)
    | OutOfFuel => True
    end.
Proof.
  intros FPS_fps FPS_str fuel w.
  assert (H := run_view FPS_fps FPS_str fuel w).
  destruct (run FPS_fps FPS_str fuel w) as [a w'|e w'|]; [| |exact I].
  - unfold view in H. destruct (_running w); injection H as -> ->; auto.
  - unfold view in H. injection H as -> ->. auto.
Qed.

Section Stopped.

Variable p : Event -> bool.
Hypothesis p_host : forall e, is_host e = true -> p e = false.
Hypothesis p_get : forall keys, p (SrvGet keys) = false.
Hypothesis p_display : p Display = false.
Hypothesis p_call : p CallUpdateFrame = false.
Variable FPS_fps : FPS -> Q -> Q.
Variable FPS_str : FPS -> Q -> string.

Lemma count_sets (evs : list Event) :
  (forall key value, p (SrvSet key value) = false) ->
  forallb is_set evs = true -> count p evs = 0%nat.
Proof.
  intro Hp. unfold count. induction evs as [|e evs IH]; simpl; [reflexivity|].
  intro H. apply andb_true_iff in H as [He Hr].
  destruct e; try discriminate. rewrite Hp. exact (IH Hr).
Qed.

Lemma set_finger_view (x y : Q) (w : World) :
  (forall key value, p (SrvSet key value) = false) \/ _running w = false ->
  exists e w', _set_finger x y w = Raise e w' /\ view p w' = view p w.
Proof.
  intro Hq.
  destruct (set_finger_effect x y w)
    as [e [w' [evs [E [R [_ [_ [_ [T [S [N _]]]]]]]]]]].
  exists e, w'. split; [exact E|]. unfold view. rewrite R, T, count_app.
  assert (Z0 : count p evs = 0%nat).
  { destruct Hq as [Hp|Hr]; [exact (count_sets evs Hp S)|].
    rewrite (N Hr). reflexivity. }
  rewrite Z0, Nat.add_0_r. reflexivity.
Qed.

Lemma pointer_view (a : Action) (w w1 : World) :
  match a with
  | MouseDown _ _ | MouseMove _ _ | MouseUp _ _ | MouseOut _ _ => True
  | _ => False
  end ->
  (forall key value, p (SrvSet key value) = false) \/ _running w = false ->
  world_of (act FPS_fps FPS_str a w) = Some w1 ->
  view p w1 = view p w.
Proof.
  destruct a; try contradiction; intros _ Hq; simpl.
  - unfold _handle_mouse_down. run_monad.
    destruct (set_finger_view x y (set_mouse_down true w) Hq)
      as [e [w' [E V]]].
    rewrite E. simpl. intro H. injection H as <-. exact V.
  - unfold _handle_mouse_move. run_monad. destruct (_mouse_down w).
    + destruct (set_finger_view x y w Hq) as [e [w' [E V]]].
      rewrite E. simpl. intro H. injection H as <-. exact V.
    + simpl. intro H. injection H as <-. reflexivity.
  - intro H. injection H as <-. reflexivity.
  - intro H. injection H as <-. reflexivity.
Qed.

Lemma act_stopped (a : Action) (w w1 : World) :
  _running w = false ->
  world_of (act FPS_fps FPS_str a w) = Some w1 ->
  view p w1 = view p w.
Proof.
  intros Hr H.
  destruct a;
    try (apply pointer_view with (3 := H); [exact I | right; exact Hr]);
    cbn [act] in H.
  - unfold on_value_change in H. revert H. run_monad. rewrite Hr. simpl.
    intro H. injection H as <-. reflexivity.
  - unfold on_click in H. revert H. run_monad. rewrite Hr. simpl.
    intro H. injection H as <-. reflexivity.
  - rewrite update_frame_noop in H by (left; exact Hr).
    injection H as <-. reflexivity.
  - assert (Hv : fst (view p w) = false) by exact Hr.
    assert (Hfin : keeps p (view p w) run_finish).
    { intros w0 H0. unfold run_finish, quit. run_monad.
      assert (R0 : _running w0 = false)
        by (unfold view in H0; injection H0 as -> _; exact Hr).
      rewrite R0. exact H0. }
    assert (X := hoare_run p (view p w) p_host p_get p_display p_call
                   FPS_fps FPS_str
                   (fun fuel' =>
                      keeps_update_frame_stopped p (view p w) FPS_str fuel' Hv)
                   fuel _ Hfin w eq_refl).
    destruct (run FPS_fps FPS_str fuel w); simpl in H; try discriminate;
      injection H as <-; exact X.
Qed.

Lemma after_stopped (calls : list Action) : forall w : World,
  _running w = false ->
  view p (after FPS_fps FPS_str calls w) = view p w.
Proof.
  induction calls as [|a calls IH]; intros w Hr; simpl; [reflexivity|].
  destruct (world_of (act FPS_fps FPS_str a w)) as [w1|] eqn:E;
    [|reflexivity].
  assert (V := act_stopped a w w1 Hr E).
  rewrite IH; [exact V|].
  unfold view in V. injection V as -> _. exact Hr.
Qed.

End Stopped.

(** X11.  A client that has stopped is silent for good: whatever the host calls
    afterwards (value changes, clicks, pointer events, the Update Cycle,
    [run] itself), it stays Stopped and no frame is fetched, no control is
    forwarded and no command is sent; [run] still makes its handshake. *)
Theorem stopped_client_is_silent :
  forall (FPS_fps : FPS -> Q -> Q) (FPS_str : FPS -> Q -> string)
    (calls : list Action) (w : World),
    _running w = false ->
    _running (after FPS_fps FPS_str calls w) = false
    /\ count is_traffic (trace (after FPS_fps FPS_str calls w))
       = count is_traffic (trace w).
Proof.
  intros FPS_fps FPS_str calls w Hr.
  assert (V := after_stopped is_traffic
                 (fun e => match e with
                           | Pump | Sleep _ => fun _ => eq_refl
                           | _ => fun H => False_ind _ (diff_false_true H)
                           end)
                 (fun _ => eq_refl) eq_refl eq_refl FPS_fps FPS_str calls w Hr).
  unfold view in V. injection V as -> ->. auto.
Qed.

(** A stopped client and six calls of the host. *)
Lemma stopped_client_stays_silent :
  _running
    (after measured_fps plain_str
       [Click "reset"; ValueChange "V0" 1; MouseDown 100 50; UpdateFrame 5;
        Run 5; Click "quit"] stopped_client) = false
  /\ count is_traffic
       (trace
          (after measured_fps plain_str
             [Click "reset"; ValueChange "V0" 1; MouseDown 100 50;
              UpdateFrame 5; Run 5; Click "quit"] stopped_client))
     = count is_traffic (trace stopped_client).
Proof.
  apply (stopped_client_is_silent measured_fps plain_str
           [Click "reset"; ValueChange "V0" 1; MouseDown 100 50; UpdateFrame 5;
            Run 5; Click "quit"] stopped_client).
  reflexivity.
Defined.

Lemma act_running (FPS_fps : FPS -> Q -> Q) (FPS_str : FPS -> Q -> string)
    (a : Action) (w w1 : World) :
  _running w = true ->
  world_of (act FPS_fps FPS_str a w) = Some w1 ->
  view is_quit w1 = view is_quit w
  \/ view is_quit w1 = (false, S (count is_quit (trace w))).
Proof.
  intros Hr H.
  destruct a;
    try (left; apply pointer_view with (3 := H);
         [exact I | left; intros; reflexivity]);
    cbn [act] in H.
  - left. unfold on_value_change, server_set in H. revert H. run_monad.
    rewrite Hr. simpl. intro H. injection H as <-.
    unfold view. simpl. rewrite count_app. unfold count at 2. simpl.
    rewrite Nat.add_0_r. reflexivity.
  - unfold on_click, quit, server_do in H. revert H. run_monad.
    rewrite Hr. simpl. destruct (String.eqb button_name "quit") eqn:E;
      simpl; intro H; injection H as <-; unfold view; simpl;
      rewrite count_app; unfold count; simpl.
    + right. f_equal. lia.
    + left. rewrite E. simpl. rewrite Nat.add_0_r, Hr. reflexivity.
  - left.
    assert (X := keeps_update_frame_unwatched is_quit (view is_quit w)
                   host_not_quit FPS_str fuel
                   (fun _ => eq_refl) (fun _ => eq_refl) w eq_refl).
    destruct (update_frame FPS_str fuel w); simpl in H; try discriminate;
      injection H as <-; exact X.
  - assert (X := run_view FPS_fps FPS_str fuel w). rewrite Hr in X.
    destruct (run FPS_fps FPS_str fuel w); simpl in H; try discriminate;
      injection H as <-; auto.
Qed.

(** X12.  Over the whole life of a client that the host drives through its
    handlers, the Update Cycle and [run], [do("quit")] is sent at most once,
    and it has been sent exactly when the client is Stopped. *)
Theorem quit_is_sent_at_most_once :
  forall (FPS_fps : FPS -> Q -> Q) (FPS_str : FPS -> Q -> string)
    (calls : list Action) (w : World),
    _running w = true ->
    (_running (after FPS_fps FPS_str calls w) = true
     /\ count is_quit (trace (after FPS_fps FPS_str calls w))
        = count is_quit (trace w))
    \/ (_running (after FPS_fps FPS_str calls w) = false
        /\ count is_quit (trace (after FPS_fps FPS_str calls w))
           = S (count is_quit (trace w))).
Proof.
  intros FPS_fps FPS_str calls.
  induction calls as [|a calls IH]; intros w Hr; simpl; [left; auto|].
  destruct (world_of (act FPS_fps FPS_str a w)) as [w1|] eqn:E;
    [|left; auto].
  destruct (act_running FPS_fps FPS_str a w w1 Hr E) as [V|V];
    unfold view in V; injection V as R1 C1.
  - rewrite <- C1. apply IH. rewrite R1. exact Hr.
  - right.
    assert (S1 := after_stopped is_quit host_not_quit (fun _ => eq_refl)
                    eq_refl eq_refl FPS_fps FPS_str calls w1 R1).
    unfold view in S1. injection S1 as -> ->. auto.
Qed.

(** A fresh client: two controls, a session of two frames, then a click on
    quit and another call of [run]. *)
Lemma quit_sent_once_at_fresh_client :
  (_running
     (after measured_fps plain_str
        [ValueChange "V0" 1; Click "reset"; Run 50; Click "quit"; Run 50]
        (fresh_client 2 [])) = true
   /\ count is_quit
        (trace
           (after measured_fps plain_str
              [ValueChange "V0" 1; Click "reset"; Run 50; Click "quit"; Run 50]
              (fresh_client 2 [])))
      = count is_quit (trace (fresh_client 2 [])))
  \/ (_running
        (after measured_fps plain_str
           [ValueChange "V0" 1; Click "reset"; Run 50; Click "quit"; Run 50]
           (fresh_client 2 [])) = false
      /\ count is_quit
           (trace
              (after measured_fps plain_str
                 [ValueChange "V0" 1; Click "reset"; Run 50; Click "quit";
                  Run 50] (fresh_client 2 [])))
         = S (count is_quit (trace (fresh_client 2 [])))).
Proof.
  apply (quit_is_sent_at_most_once measured_fps plain_str
           [ValueChange "V0" 1; Click "reset"; Run 50; Click "quit"; Run 50]
           (fresh_client 2 [])).
  reflexivity.
Defined.

(** ** get_image *)

Lemma drop_alpha_rows (rgba : Pixels) :
  map (@List.length Pixel) (drop_alpha rgba) = map (@List.length Pixel) rgba.
Proof.
  unfold drop_alpha. rewrite map_map. apply map_ext. intro row.
  apply length_map.
Qed.

Lemma drop_alpha_rgb (rgba : Pixels) :
  Forall (Forall (fun px : Pixel => List.length px = 4%nat)) rgba ->
  Forall2 (Forall2 (fun px px' : Pixel => exists a : Z, px = (px' ++ [a])%list))
    rgba (drop_alpha rgba).
Proof.
  unfold drop_alpha. induction 1 as [|row rows Hrow _ IH]; simpl;
    constructor; [|exact IH].
  induction Hrow as [|px pxs Hpx _ IHrow]; simpl; constructor; [|exact IHrow].
  destruct px as [|r [|g [|b [|a [|x px]]]]]; simpl in Hpx; try discriminate.
  exists a. reflexivity.
Qed.

(** X13.  [get_image] returns nothing, and encodes nothing, when the client is
    Stopped.  When it is Running and the format is JPEG (in any letter
    case), the encoder receives the image without its alpha channel: same
    height, same width of every row, and each RGBA pixel cut to its RGB;
    for every other format the image is handed over as it is. *)
Theorem get_image_drops_alpha_for_jpeg :
  forall (PIL_save : string -> Pixels -> list Byte.byte) (fmt : string)
    (rgba : Pixels) (w : World),
    (_running w = false -> get_image PIL_save fmt rgba w = Ret None w)
    /\ (_running w = true -> lower fmt = "jpeg" ->
        get_image PIL_save fmt rgba w
        = Ret (Some (PIL_save fmt (drop_alpha rgba))) w)
    /\ (_running w = true -> lower fmt <> "jpeg" ->
        get_image PIL_save fmt rgba w = Ret (Some (PIL_save fmt rgba)) w)
    /\ List.length (drop_alpha rgba) = List.length rgba
    /\ map (@List.length Pixel) (drop_alpha rgba)
       = map (@List.length Pixel) rgba
    /\ (Forall (Forall (fun px : Pixel => List.length px = 4%nat)) rgba ->
        Forall2
          (Forall2 (fun px px' : Pixel => exists a : Z, px = (px' ++ [a])%list))
          rgba (drop_alpha rgba)).
Proof.
  intros PIL_save fmt rgba w.
  split; [|split; [|split; [|split; [|split]]]].
  - intro H. unfold get_image. run_monad. rewrite H. reflexivity.
  - intros H E. unfold get_image. run_monad. rewrite H, E. reflexivity.
  - intros H E. unfold get_image. run_monad. rewrite H. simpl.
    apply String.eqb_neq in E. rewrite E. reflexivity.
  - unfold drop_alpha. apply length_map.
  - apply drop_alpha_rows.
  - apply drop_alpha_rgb.
Qed.

(** A 1 x 2 RGBA image, as "JPEG" and as "PNG", with an encoder that
    writes one byte per channel value it receives. *)
Lemma get_image_of_two_pixels :
  get_image (fun _ a => map (fun _ => Byte.x00) (List.concat (List.concat a))) "JPEG"
    [[[255; 0; 0; 128]; [0; 255; 0; 128]]]%Z (fresh_client 5 [])
  = Ret (Some (map (fun _ => Byte.x00)
                 (List.concat (List.concat
                    (drop_alpha [[[255; 0; 0; 128]; [0; 255; 0; 128]]]%Z)))))
      (fresh_client 5 [])
  /\ get_image (fun _ a => map (fun _ => Byte.x00) (List.concat (List.concat a))) "PNG"
       [[[255; 0; 0; 128]; [0; 255; 0; 128]]]%Z (fresh_client 5 [])
     = Ret (Some (map (fun _ => Byte.x00)
                    (List.concat (List.concat [[[255; 0; 0; 128]; [0; 255; 0; 128]]]%Z))))
         (fresh_client 5 [])
  /\ get_image (fun _ a => map (fun _ => Byte.x00) (List.concat (List.concat a))) "PNG"
       [[[255; 0; 0; 128]; [0; 255; 0; 128]]]%Z stopped_client
     = Ret None stopped_client.
Proof.
  split; [|split].
  - apply (proj1 (proj2 (get_image_drops_alpha_for_jpeg
             (fun _ a => map (fun _ => Byte.x00) (List.concat (List.concat a))) "JPEG"
             [[[255; 0; 0; 128]; [0; 255; 0; 128]]]%Z (fresh_client 5 []))));
      reflexivity.
  - apply (proj1 (proj2 (proj2 (get_image_drops_alpha_for_jpeg
             (fun _ a => map (fun _ => Byte.x00) (List.concat (List.concat a))) "PNG"
             [[[255; 0; 0; 128]; [0; 255; 0; 128]]]%Z (fresh_client 5 []))))).
    + reflexivity.
    + simpl. discriminate.
  - apply (proj1 (get_image_drops_alpha_for_jpeg
             (fun _ a => map (fun _ => Byte.x00) (List.concat (List.concat a))) "PNG"
             [[[255; 0; 0; 128]; [0; 255; 0; 128]]]%Z stopped_client)).
    reflexivity.
Defined.

(** ** The browser-driven session *)



